(** * automate-splunk-suppression: generator and summarizer

    A shallow embedding of the two scripts of the repository,
    [synthetic_data_generator.py] and [data_viz.py], and the properties
    their specification states about them.

    Layout: the fragments of the Python runtime both scripts rely on
    ([Py]), the alert row shared through the CSV file, the generator
    ([Generator]), the summarizer ([Summarizer]), and then the lemmas. *)

From Stdlib Require Import ZArith List String Ascii Bool Lia Permutation.
From Stdlib Require Import DecimalString Sorted.
Import ListNotations.

Open Scope Z_scope.

(* ================================================================= *)
(** ** Python runtime fragments *)

Module Py.

(** Exceptions the two scripts can meet.  [SystemExit] is what
    [sys.exit()] raises; the interpreter turns it into exit status 0.
    [Other] is any other class, by its name: what the operating system,
    the console or pandas may raise ([IsADirectoryError],
    [UnicodeEncodeError], [TypeError], ...). *)
Inductive Exn : Type :=
| ValueError
| IndexError
| OverflowError
| FileNotFoundError
| SystemExit
| Other (name : string).

Inductive Res (A : Type) : Type :=
| Ok (a : A)
| Raise (e : Exn).
Arguments Ok {A} a.
Arguments Raise {A} e.

(** State-and-exception monad: a computation reads and updates the
    world [W] and either returns or raises. *)
Definition M (W A : Type) : Type := W -> Res A * W.

Definition ret {W A} (a : A) : M W A := fun w => (Ok a, w).

Definition raise {W A} (e : Exn) : M W A := fun w => (Raise e, w).

Definition bind {W A B} (m : M W A) (k : A -> M W B) : M W B :=
  fun w =>
    match m w with
    | (Ok a, w') => k a w'
    | (Raise e, w') => (Raise e, w')
    end.

Definition lift {W A} (r : Res A) : M W A := fun w => (r, w).

Definition get {W} : M W W := fun w => (Ok w, w).

Definition modify {W} (f : W -> W) : M W unit := fun w => (Ok tt, f w).

(** Exit status the interpreter reports for a finished [main]. *)
Definition exit_status {A} (r : Res A) : Z :=
  match r with
  | Ok _ => 0
  | Raise SystemExit => 0
  | Raise _ => 1
  end.

(** *** [int(str)] *)

(** Whitespace [int] strips: TAB..CR and the space. *)
Definition is_space (c : ascii) : bool :=
  let n := nat_of_ascii c in
  (((9 <=? n) && (n <=? 13)) || (n =? 32))%nat.

Fixpoint lstrip (cs : list ascii) : list ascii :=
  match cs with
  | c :: cs' => if is_space c then lstrip cs' else cs
  | [] => []
  end.

Definition strip (cs : list ascii) : list ascii :=
  rev (lstrip (rev (lstrip cs))).

Definition digit_of (c : ascii) : option Z :=
  let n := nat_of_ascii c in
  if ((48 <=? n) && (n <=? 57))%nat then Some (Z.of_nat (n - 48)) else None.

(** Decimal digits, single underscores allowed between two digits.
    [prev] tells whether the previous character was a digit. *)
Fixpoint int_digits (acc : Z) (prev : bool) (cs : list ascii) : option Z :=
  match cs with
  | [] => if prev then Some acc else None
  | c :: cs' =>
      match digit_of c with
      | Some d => int_digits (10 * acc + d) true cs'
      | None =>
          if (Ascii.eqb c "_" && prev)%bool then int_digits acc false cs'
          else None
      end
  end.

(** [int(s)] in base 10 on an ASCII string: surrounding whitespace, an
    optional sign, then the digits; anything else is a [ValueError]. *)
Definition int (s : string) : Res Z :=
  let parsed :=
    match strip (list_ascii_of_string s) with
    | "-"%char :: ds => option_map Z.opp (int_digits 0 false ds)
    | "+"%char :: ds => int_digits 0 false ds
    | ds => int_digits 0 false ds
    end in
  match parsed with
  | Some z => Ok z
  | None => Raise ValueError
  end.

(** [str(n)] for an integer. *)
Definition str (n : Z) : string := NilZero.string_of_int (Z.to_int n).

(** *** binary64 arithmetic of [rows * 0.05]

    A finite double is kept as a pair [(m, e)] standing for [m * 2^e].
    Only what [int(rows * PROOF_DUPLICATE_RATIO)] needs is modelled:
    conversion of an integer, one multiplication, truncation. *)
Definition float : Type := (Z * Z)%type.

(** Round a non-negative [m * 2^e] to 53 significant bits, ties to even. *)
Definition round53 (m e : Z) : float :=
  let d := Z.log2 m + 1 - 53 in
  if d <=? 0 then (m, e)
  else
    let q := m / 2 ^ d in
    let r := m mod 2 ^ d in
    let half := 2 ^ (d - 1) in
    let q' := if r <? half then q
              else if half <? r then q + 1
              else if Z.even q then q else q + 1 in
    (q', e + d).

(** [float(n)] as the interpreter does it when an [int] meets a [float]:
    correctly rounded, [OverflowError] from 2^1024 on. *)
Definition float_of_int (n : Z) : Res float :=
  let '(m, e) := round53 (Z.abs n) 0 in
  if (m =? 0) || (Z.log2 m + e <? 1024) then Ok (Z.sgn n * m, e)
  else Raise OverflowError.

Definition float_mul (a b : float) : float :=
  let '(ma, ea) := a in
  let '(mb, eb) := b in
  let '(m, e) := round53 (Z.abs ma * Z.abs mb) (ea + eb) in
  (Z.sgn ma * Z.sgn mb * m, e).

(** [int(x)] on a finite double: truncation towards zero. *)
Definition int_of_float (x : float) : Z :=
  let '(m, e) := x in
  if 0 <=? e then m * 2 ^ e else Z.quot m (2 ^ (- e)).

End Py.

Import Py.

Declare Scope py_scope.
Delimit Scope py_scope with py.
Notation "x <- m ;; k" := (bind m (fun x => k))
  (at level 61, m at next level, right associativity) : py_scope.
Notation "m ;; k" := (bind m (fun _ => k))
  (at level 61, right associativity) : py_scope.
Open Scope py_scope.

(* ================================================================= *)
(** ** The alert row and the table of rows *)

(** One line of the CSV file.  [_time] is the instant the ISO-8601
    column denotes, in microseconds (the resolution of [datetime]);
    every other column is the string the file holds. *)
Record Row : Type := mkRow {
  _time        : Z;
  src          : string;
  dest         : string;
  signature    : string;
  category     : string;
  file_name    : string;
  severity     : string;
  user         : string;
  status_label : string
}.

(** A [pandas.DataFrame] of alert rows, in row order. *)
Definition DataFrame : Type := list Row.

(** [df["status_label"] = v]: the column is overwritten in every row. *)
Definition set_status (v : string) (r : Row) : Row :=
  mkRow (_time r) (src r) (dest r) (signature r) (category r)
        (file_name r) (severity r) (user r) v.

(** The length of [d] days in microseconds.  Instants are counted in
    microseconds from 0001-01-01T00:00:00, the least [datetime]. *)
Definition timedelta_days (d : Z) : Z := d * 86400000000.

(** The greatest [datetime], 9999-12-31T23:59:59.999999. *)
Definition DATETIME_MAX : Z := 3652059 * 86400000000 - 1.

(** [timedelta(days=d)]: refused beyond 999999999 days either way. *)
Definition timedelta (d : Z) : Res Z :=
  if Z.abs d <=? 999999999 then Ok (timedelta_days d)
  else Raise OverflowError.

(** [t - delta] on a [datetime]: refused when the result is no
    [datetime]. *)
Definition datetime_sub (t delta : Z) : Res Z :=
  let r := t - delta in
  if (0 <=? r) && (r <=? DATETIME_MAX) then Ok r else Raise OverflowError.

Definition CLOSED_WITHOUT : string := "closed without escalation".
Definition CLOSED_WITH    : string := "closed with escalation".

(* ================================================================= *)
(** ** synthetic_data_generator.py *)

Module Generator.

(** What [to_csv] leaves at a path: the whole table, or whatever an
    interrupted write left. *)
Inductive Written : Type :=
| Whole (df : DataFrame)
| Torn.

(** What the operating system does with a write: it takes it, refuses
    to open the path ([IsADirectoryError], [PermissionError], a missing
    directory, ...), or fails while the table is being written. *)
Inductive WriteOutcome : Type :=
| Accepted
| Refused (e : Exn)
| Broken (e : Exn).

(** What the script touches outside its own variables: the random
    generators ([random] and the one behind [DataFrame.sample], both
    read here from one stream of raw draws), the wall clock (one
    reading per [datetime.today()]), the writes made so far, oldest
    first, and the console; and how the operating system answers a
    write and the console a line ([UnicodeEncodeError],
    [BrokenPipeError], ...). *)
Record World : Type := mkWorld {
  entropy      : nat -> N;
  clock        : nat -> Z;
  files        : list (string * Written);
  stdout       : list string;
  disk_says    : string -> DataFrame -> WriteOutcome;
  console_says : string -> option Exn
}.

Definition G : Type -> Type := M World.

(** One raw draw from the random stream. *)
Definition draw : G N := fun w =>
  (Ok (entropy w 0%nat),
   mkWorld (fun i => entropy w (S i)) (clock w) (files w) (stdout w)
           (disk_says w) (console_says w)).

(** [datetime.today()]. *)
Definition datetime_today : G Z := fun w =>
  (Ok (clock w 0%nat),
   mkWorld (entropy w) (fun i => clock w (S i)) (files w) (stdout w)
           (disk_says w) (console_says w)).

(** [random._randbelow(n)] for [n > 0]. *)
Definition randbelow (n : nat) : G nat :=
  x <- draw ;; ret (N.to_nat (x mod N.of_nat n)).

(** [random.randint(a, b)]: both ends included, empty range refused. *)
Definition randint (a b : Z) : G Z :=
  if b <? a then raise ValueError
  else i <- randbelow (Z.to_nat (b - a + 1)) ;; ret (a + Z.of_nat i).

(** [random.choice(seq)]. *)
Definition choice {A} (seq : list A) : G A :=
  match seq with
  | [] => raise IndexError
  | _ =>
      i <- randbelow (List.length seq) ;;
      match nth_error seq i with
      | Some x => ret x
      | None => raise IndexError
      end
  end.

(** [bisect(cum_weights, v)] on the running sums of [weights]: index of
    the first element whose running sum exceeds [v]. *)
Fixpoint bisect (weights : list Z) (v : Z) : nat :=
  match weights with
  | [] => 0%nat
  | w :: ws => if v <? w then 0%nat else S (bisect ws (v - w))
  end.

(** [random.choices(population, weights)[0]].  Weights are integers
    (the status weights 0.8 / 0.2 are kept in tenths); the point
    [random() * total] is kept by its integer part, which is all that
    [bisect] looks at for integer running sums. *)
Definition choices {A} (population : list A) (weights : list Z) : G A :=
  let total := fold_right Z.add 0 weights in
  if negb (List.length weights =? List.length population)%nat then raise ValueError
  else if total <=? 0 then raise ValueError
  else
    i <- randbelow (Z.to_nat total) ;;
    match nth_error population (bisect weights (Z.of_nat i)) with
    | Some x => ret x
    | None => raise IndexError
    end.

(** *** CONFIG *)

Definition ROWS_DEFAULT : Z := 20000.

(** [PROOF_DUPLICATE_RATIO = 0.05]: the double nearest to 1/20,
    7205759403792794 * 2^-57. *)
Definition PROOF_DUPLICATE_RATIO : Py.float := (7205759403792794, -57).

(** [str(Path(s))], POSIX flavour: empty and "." components go, a run
    of slashes counts as one, a leading "/" stays (and "//" when there
    are exactly two), and nothing at all reads ".". *)
Fixpoint split_slash (cur : list ascii) (cs : list ascii)
  : list (list ascii) :=
  match cs with
  | [] => [rev cur]
  | c :: cs' =>
      if Ascii.eqb c "/" then rev cur :: split_slash [] cs'
      else split_slash (c :: cur) cs'
  end.

Fixpoint leading_slashes (cs : list ascii) : nat :=
  match cs with
  | c :: cs' => if Ascii.eqb c "/" then S (leading_slashes cs') else O
  | [] => O
  end.

Definition is_part (c : list ascii) : bool :=
  match c with
  | [] => false
  | ["."%char] => false
  | _ => true
  end.

Definition Path (s : string) : string :=
  let cs := list_ascii_of_string s in
  let root := match leading_slashes cs with
              | O => ""
              | 2%nat => "//"
              | _ => "/"
              end%string in
  let parts := map string_of_list_ascii (filter is_part (split_slash [] cs)) in
  let r := (root ++ String.concat "/" parts)%string in
  if String.eqb r "" then "."%string else r.

Definition CSV_OUT : string := Path "notables.csv".

(** [ipaddress.ip_network]: network address and prefix length. *)
Record IPv4Network : Type := mkNet {
  network_address : Z;
  prefixlen       : Z
}.

Definition num_addresses (net : IPv4Network) : Z := 2 ^ (32 - prefixlen net).

Definition broadcast_address (net : IPv4Network) : Z :=
  network_address net + num_addresses net - 1.

(** [net[n]]: the n-th address, counted from the end when [n < 0]. *)
Definition net_getitem (net : IPv4Network) (n : Z) : Res Z :=
  if 0 <=? n then
    if broadcast_address net <? network_address net + n then Raise IndexError
    else Ok (network_address net + n)
  else
    if broadcast_address net + (n + 1) <? network_address net
    then Raise IndexError
    else Ok (broadcast_address net + (n + 1)).

(** [str(IPv4Address(a))]: dotted quad. *)
Definition ip_str (a : Z) : string :=
  (Py.str (a / 16777216 mod 256) ++ "." ++ Py.str (a / 65536 mod 256) ++ "."
   ++ Py.str (a / 256 mod 256) ++ "." ++ Py.str (a mod 256))%string.

Definition ip (a b c d : Z) : Z := ((a * 256 + b) * 256 + c) * 256 + d.

Definition SRC_NET  : IPv4Network := mkNet (ip 10 0 0 0) 16.
Definition DEST_NET : IPv4Network := mkNet (ip 192 168 0 0) 16.

Definition SIGNATURES : list string :=
  ["EICAR-TEST-FILE"; "Meterpreter Beacon"; "Cobalt Strike Loader";
   "Unknown Hash Hit"; "Suspicious PowerShell"; "Ransomware Behaviour"]%string.

Definition CATEGORIES : list string :=
  ["malware"; "command-and-control"; "lateral-movement";
   "priv-esc"; "persistence"; "exfiltration"]%string.

Definition FILENAMES : list string :=
  ["calc.exe"; "svchost.exe"; "powershell.exe"; "runme.tmp";
   "install.ps1"; "invoice.docx"; "setup.msi"]%string.

Definition SEVERITIES : list string :=
  ["low"; "medium"; "high"; "critical"]%string.

(** [f"{i:03}"]. *)
Definition pad3 (i : Z) : string :=
  let s := Py.str i in
  match String.length s with
  | 1%nat => ("00" ++ s)%string
  | 2%nat => ("0" ++ s)%string
  | _ => s
  end.

(** [range(a, b)]. *)
Definition range (a b : Z) : list Z :=
  map (fun i => a + Z.of_nat i) (seq 0 (Z.to_nat (b - a))).

Definition USERS : list string :=
  map (fun i => ("CORP\user" ++ pad3 i)%string) (range 1 201).

(** Keys of [STATUS_WEIGHTS] in insertion order, and their weights in
    tenths. *)
Definition STATUS_LABELS : list string := [CLOSED_WITHOUT; CLOSED_WITH].
Definition STATUS_WEIGHTS : list Z := [8; 2].

(** *** Helpers *)

Definition random_ip (net : IPv4Network) : G string :=
  host_int <- randint 1 (num_addresses net - 2) ;;
  a <- lift (net_getitem net host_int) ;;
  ret (ip_str a).

Definition synth_row (day_offset : Z) : G Row :=
  today <- datetime_today ;;
  let event_time := today - timedelta_days day_offset in
  s   <- random_ip SRC_NET ;;
  d   <- random_ip DEST_NET ;;
  sig <- choice SIGNATURES ;;
  cat <- choice CATEGORIES ;;
  fn  <- choice FILENAMES ;;
  sev <- choices SEVERITIES [4; 4; 2; 1] ;;
  u   <- choice USERS ;;
  st  <- choices STATUS_LABELS STATUS_WEIGHTS ;;
  ret (mkRow event_time s d sig cat fn sev u st).

(** [for _ in range(n): records.append(mk())]. *)
Fixpoint append_rows (n : nat) (mk : G Row) (records : list Row)
  : G (list Row) :=
  match n with
  | O => ret records
  | S n' => r <- mk ;; append_rows n' mk (records ++ [r])
  end.

(** [for offset in offsets: for _ in range(per_day): ...]. *)
Fixpoint for_days (offsets : list Z) (per_day : nat) (records : list Row)
  : G (list Row) :=
  match offsets with
  | [] => ret records
  | offset :: rest =>
      records' <- append_rows per_day (synth_row offset) records ;;
      for_days rest per_day records'
  end.

(** [rows // 90 or 1]. *)
Definition per_day_of (rows : Z) : Z :=
  if rows / 90 =? 0 then 1 else rows / 90.

Definition remainder_of (rows : Z) : Z := rows - per_day_of rows * 90.

(** The non-duplicate set: the two loops that fill [records]. *)
Definition base_records (rows : Z) : G (list Row) :=
  let per_day := per_day_of rows in
  let remainder := remainder_of rows in
  records <- for_days (range 0 90) (Z.to_nat per_day) [] ;;
  append_rows (Z.to_nat remainder)
              (day_offset <- randint 0 89 ;; synth_row day_offset)
              records.

(** [k] rows of [pool] at distinct positions, in the order drawn. *)
Fixpoint take_random (k : nat) (pool : list Row) : G (list Row) :=
  match k with
  | O => ret []
  | S k' =>
      i <- randbelow (List.length pool) ;;
      match nth_error pool i with
      | Some r =>
          rest <- take_random k' (firstn i pool ++ skipn (S i) pool) ;;
          ret (r :: rest)
      | None => raise IndexError
      end
  end.

(** [df.sample(n)]: without replacement; a negative [n] or one larger
    than the table is a [ValueError]. *)
Definition sample (n : Z) (df : DataFrame) : G DataFrame :=
  if n <? 0 then raise ValueError
  else if Z.of_nat (List.length df) <? n then raise ValueError
  else take_random (Z.to_nat n) df.

(** [df.sample(frac=1)]: every row, in random order. *)
Definition sample_all (df : DataFrame) : G DataFrame :=
  take_random (List.length df) df.

(** [int(rows * PROOF_DUPLICATE_RATIO)]. *)
Definition dupe_count_of (rows : Z) : Res Z :=
  match float_of_int rows with
  | Ok x => Ok (int_of_float (float_mul x PROOF_DUPLICATE_RATIO))
  | Raise e => Raise e
  end.

(** The injected block: [df.sample(dupe_count).copy()] with its status
    column overwritten. *)
Definition dupe_rows (dupe_count : Z) (df : DataFrame) : G DataFrame :=
  dupe_sample <- sample dupe_count df ;;
  ret (map (set_status CLOSED_WITHOUT) dupe_sample).

Definition generate_notables (rows : Z) : G DataFrame :=
  df <- base_records rows ;;
  dupe_count <- lift (dupe_count_of rows) ;;
  df <- (if dupe_count =? 0 then ret df
         else dupes <- dupe_rows dupe_count df ;; ret (df ++ dupes)) ;;
  sample_all df.

(** [f"{n:,}"]: decimal with a comma every three digits. *)
Fixpoint group3 (fuel : nat) (n : Z) : string :=
  match fuel with
  | O => Py.str n
  | S fuel' =>
      if n <? 1000 then Py.str n
      else (group3 fuel' (n / 1000) ++ "," ++ pad3 (n mod 1000))%string
  end.

Definition fmt_thousands (n : Z) : string :=
  if n <? 0 then ("-" ++ group3 (Z.to_nat (- n)) (- n))%string
  else group3 (Z.to_nat n) n.

(** [df.to_csv(out, index=False)]: one write at [out], which the
    operating system takes, refuses or breaks off. *)
Definition to_csv (out : string) (df : DataFrame) : G unit := fun w =>
  let wrote (x : Written) :=
    mkWorld (entropy w) (clock w) (files w ++ [(out, x)]) (stdout w)
            (disk_says w) (console_says w) in
  match disk_says w out df with
  | Accepted => (Ok tt, wrote (Whole df))
  | Refused e => (Raise e, w)
  | Broken e => (Raise e, wrote Torn)
  end.

(** [print(line)]: the line reaches the console unless the console
    raises on it. *)
Definition print (line : string) : G unit := fun w =>
  match console_says w line with
  | None =>
      (Ok tt, mkWorld (entropy w) (clock w) (files w) (stdout w ++ [line])
                      (disk_says w) (console_says w))
  | Some e => (Raise e, w)
  end.

(** [main], with [sys.argv] as its argument. *)
Definition main (argv : list string) : G unit :=
  total_rows <- match nth_error argv 1 with
                | Some a => lift (Py.int a)
                | None => ret ROWS_DEFAULT
                end ;;
  df <- generate_notables total_rows ;;
  let out := match nth_error argv 2 with
             | Some p => Path p
             | None => CSV_OUT
             end in
  to_csv out df ;;
  print ("[+] Wrote " ++ fmt_thousands (Z.of_nat (List.length df))
         ++ " notables → " ++ out)%string.

End Generator.

(* ================================================================= *)
(** ** data_viz.py *)

Module Summarizer.

(** A cell of the frame [read_csv] returns, whatever the text of the
    file was: missing ([NaN], [None], [<NA>]), a string, or a number
    (kept as the fraction in lowest terms it equals, a boolean as 0 or
    1), so that two cells are equal here exactly when pandas puts them
    in one group. *)
Inductive Cell : Type :=
| NA
| Str (s : string)
| Num (n : Z) (d : positive).

(** One row of that frame, in the columns the script reads.  [_time]
    is [NaT] or an instant, in whole microseconds from 0001-01-01 (a
    finer part is dropped: the cutoff is a whole number of
    microseconds, so it compares the same). *)
Record Alert : Type := mkAlert {
  _time        : option Z;
  src          : Cell;
  dest         : Cell;
  user         : Cell;
  signature    : Cell;
  severity     : Cell;
  status_label : Cell
}.

(** The frame [read_csv] returns: its rows, and what lines 43-44 raise
    on it for a given cutoff, if anything ([TypeError] when [_time] was
    left as text or carries a time zone, [KeyError] when a column is
    not there, an out-of-bounds error when this pandas cannot compare
    with the cutoff). *)
Record Frame : Type := mkFrame {
  mask_error : Z -> option Exn;
  rows       : list Alert
}.

(** [GROUP_COLS]: a row cut down to src, dest, user, signature and
    severity, in that order. *)
Definition Key : Type := (Cell * Cell * Cell * Cell * Cell)%type.

Definition group_cols (r : Alert) : Key :=
  (src r, dest r, user r, signature r, severity r).

Definition cell_eqb (a b : Cell) : bool :=
  match a, b with
  | NA, NA => true
  | Str s, Str t => String.eqb s t
  | Num n d, Num m e => (n =? m) && Pos.eqb d e
  | _, _ => false
  end.

Definition key_eqb (a b : Key) : bool :=
  let '(a1, a2, a3, a4, a5) := a in
  let '(b1, b2, b3, b4, b5) := b in
  cell_eqb a1 b1 && cell_eqb a2 b2 && cell_eqb a3 b3
  && cell_eqb a4 b4 && cell_eqb a5 b5.

Definition isna (c : Cell) : bool :=
  match c with NA => true | _ => false end.

(** Some cell of the combination is missing. *)
Definition has_na (k : Key) : bool :=
  let '(k1, k2, k3, k4, k5) := k in
  isna k1 || isna k2 || isna k3 || isna k4 || isna k5.

(** What one [print] call sends to the console: a text, or the table
    [summary.to_string(index=False)] renders (one line per cluster; the
    column padding is not modelled). *)
Inductive Out : Type :=
| Text (s : string)
| Table (clusters : list (Key * Z)).

(** The module globals, the files on disk (for each path: nothing
    there, what [read_csv] raises on it, or the frame it returns), the
    paths opened so far, the wall clock and the console. *)
Record World : Type := mkWorld {
  CSV_IN        : string;
  LOOKBACK_DAYS : Z;
  MIN_CLUSTER   : Z;
  fs            : string -> option (Res Frame);
  opened        : list string;
  clock         : nat -> Z;
  stdout        : list Out
}.

Definition Viz : Type -> Type := M World.

Definition CSV_IN_DEFAULT : string :=
  "/Users/lukewescott/Documents/dev_link/automate-splunk-suppression/data/synthetic_data/notables.csv".

(** The world a fresh interpreter starts [main] in. *)
Definition boot (disk : string -> option (Res Frame)) (clk : nat -> Z)
  : World :=
  mkWorld CSV_IN_DEFAULT 30 5 disk [] clk [].

Definition set_CSV_IN (v : string) : Viz unit :=
  modify (fun w => mkWorld v (LOOKBACK_DAYS w) (MIN_CLUSTER w)
                           (fs w) (opened w) (clock w) (stdout w)).

Definition set_LOOKBACK_DAYS (v : Z) : Viz unit :=
  modify (fun w => mkWorld (CSV_IN w) v (MIN_CLUSTER w)
                           (fs w) (opened w) (clock w) (stdout w)).

Definition set_MIN_CLUSTER (v : Z) : Viz unit :=
  modify (fun w => mkWorld (CSV_IN w) (LOOKBACK_DAYS w) v
                           (fs w) (opened w) (clock w) (stdout w)).

Definition parse_cli (argv : list string) : Viz unit :=
  match nth_error argv 1 with
  | Some a => set_CSV_IN a
  | None => ret tt
  end ;;
  match nth_error argv 2 with
  | Some a => v <- lift (Py.int a) ;; set_LOOKBACK_DAYS v
  | None => ret tt
  end ;;
  match nth_error argv 3 with
  | Some a => v <- lift (Py.int a) ;; set_MIN_CLUSTER v
  | None => ret tt
  end.

(** [pd.read_csv(path, parse_dates=["_time"])]. *)
Definition read_csv (path : string) : Viz Frame := fun w =>
  let w' := mkWorld (CSV_IN w) (LOOKBACK_DAYS w) (MIN_CLUSTER w) (fs w)
                    (opened w ++ [path]) (clock w) (stdout w) in
  match fs w path with
  | Some r => (r, w')
  | None => (Raise FileNotFoundError, w')
  end.

Definition datetime_today : Viz Z := fun w =>
  (Ok (clock w 0%nat),
   mkWorld (CSV_IN w) (LOOKBACK_DAYS w) (MIN_CLUSTER w) (fs w) (opened w)
           (fun i => clock w (S i)) (stdout w)).

(** [print(o)], on a console that takes what it is sent. *)
Definition print (o : Out) : Viz unit :=
  modify (fun w => mkWorld (CSV_IN w) (LOOKBACK_DAYS w) (MIN_CLUSTER w)
                           (fs w) (opened w) (clock w) (stdout w ++ [o])).

(** [sys.exit()]. *)
Definition sys_exit {A} : Viz A := raise SystemExit.

(** [today - timedelta(days=lookback)], line 42, once [today] is read. *)
Definition cutoff_of (today lookback : Z) : Res Z :=
  match timedelta lookback with
  | Ok delta => datetime_sub today delta
  | Raise e => Raise e
  end.

(** The boolean mask of step 1:
    [(df["_time"] >= cutoff) & (df["status_label"] == "closed without escalation")].
    [NaT] is not at or after anything, and only a string equals the
    label. *)
Definition filt (cutoff : Z) (r : Alert) : bool :=
  match _time r with
  | Some t => cutoff <=? t
  | None => false
  end
  && match status_label r with
     | Str s => String.eqb s CLOSED_WITHOUT
     | _ => false
     end.

Definition focus_of (cutoff : Z) (df : list Alert) : list Key :=
  map group_cols (filter (filt cutoff) df).

(** [df.loc[filt, GROUP_COLS]], lines 43-44. *)
Definition loc (df : Frame) (cutoff : Z) : Res (list Key) :=
  match mask_error df cutoff with
  | Some e => Raise e
  | None => Ok (focus_of cutoff (rows df))
  end.

(** One more occurrence of [k] in a table of counts. *)
Fixpoint bump (k : Key) (counts : list (Key * Z)) : list (Key * Z) :=
  match counts with
  | [] => [(k, 1)]
  | (k', c) :: rest =>
      if key_eqb k' k then (k', c + 1) :: rest else (k', c) :: bump k rest
  end.

Definition group_sizes (focus : list Key) : list (Key * Z) :=
  fold_left (fun counts k => bump k counts) focus [].

Fixpoint insert_desc (x : Key * Z) (l : list (Key * Z)) : list (Key * Z) :=
  match l with
  | [] => [x]
  | y :: l' => if snd y <=? snd x then x :: l else y :: insert_desc x l'
  end.

(** [sort_values("alert_count", ascending=False)].  pandas does not fix
    the order of equal counts; this one keeps them in the order they
    came in. *)
Definition sort_values (l : list (Key * Z)) : list (Key * Z) :=
  fold_right insert_desc [] l.

(** [dropna=True], the default of [value_counts]: a row with a missing
    cell is left out. *)
Definition dropna (focus : list Key) : list Key :=
  filter (fun k => negb (has_na k)) focus.

(** [focus.value_counts().reset_index(name="alert_count")]: one line per
    distinct combination without a missing cell, with its number of
    rows, largest first. *)
Definition value_counts (focus : list Key) : list (Key * Z) :=
  sort_values (group_sizes (dropna focus)).

(** [.query("alert_count >= @MIN_CLUSTER")]. *)
Definition query (min_cluster : Z) (counts : list (Key * Z)) : list (Key * Z) :=
  filter (fun kc => min_cluster <=? snd kc) counts.

(** Step 2 of [main]: the [summary] frame. *)
Definition summary_of (min_cluster : Z) (focus : list Key) : list (Key * Z) :=
  sort_values (query min_cluster (value_counts focus)).

Definition is_empty {A} (l : list A) : bool :=
  match l with [] => true | _ => false end.

Definition MSG_NO_ALERTS : string :=
  "No matching alerts in window; nothing to report.".

Definition msg_no_clusters (min_cluster : Z) : string :=
  ("No clusters ≥ " ++ Py.str min_cluster
   ++ " alerts. Try lowering MIN_CLUSTER.")%string.

Definition MSG_HEADER : string :=
  "
⊕ Duplicate alert clusters (non-escalated) ⊕
".

Definition main (argv : list string) : Viz unit :=
  parse_cli argv ;;
  g <- get ;;
  df <- read_csv (CSV_IN g) ;;
  today <- datetime_today ;;
  cutoff <- lift (cutoff_of today (LOOKBACK_DAYS g)) ;;
  focus <- lift (loc df cutoff) ;;
  if is_empty focus then
    print (Text MSG_NO_ALERTS) ;; sys_exit
  else
    let summary := summary_of (MIN_CLUSTER g) focus in
    if is_empty summary then
      print (Text (msg_no_clusters (MIN_CLUSTER g))) ;; sys_exit
    else
      print (Text MSG_HEADER) ;;
      print (Table summary).

(** One run from a fresh interpreter: exit status and console. *)
Definition run (argv : list string) (disk : string -> option (Res Frame))
           (clk : nat -> Z) : Z * list Out :=
  let '(r, w) := main argv (boot disk clk) in (exit_status r, stdout w).

(** The clusters a run reports: the lines of the table it printed. *)
Definition reported (out : list Out) : list (Key * Z) :=
  flat_map (fun o => match o with Table t => t | Text _ => [] end) out.

End Summarizer.

(* ================================================================= *)
(** ** Vocabulary of the properties *)

(** *** Generator *)

(** Every reading the clock of [w] will ever give satisfies [P]. *)
Definition clock_ok (P : Z -> Prop) (w : Generator.World) : Prop :=
  forall i, P (Generator.clock w i).

(** [m] returns from every world whose clock readings satisfy [P], what
    it returns satisfies [Q], and the clock it leaves still satisfies
    [P]. *)
Definition yields {A} (P : Z -> Prop) (m : Generator.G A) (Q : A -> Prop)
  : Prop :=
  forall w, clock_ok P w ->
    exists a w', m w = (Ok a, w') /\ clock_ok P w' /\ Q a.

(** [m] leaves the written files and the console as they were, and the
    operating system and the console answering as before, whether it
    returns or raises. *)
Definition quiet {A} (m : Generator.G A) : Prop :=
  forall w,
    Generator.files (snd (m w)) = Generator.files w /\
    Generator.stdout (snd (m w)) = Generator.stdout w /\
    Generator.disk_says (snd (m w)) = Generator.disk_says w /\
    Generator.console_says (snd (m w)) = Generator.console_says w.

(** [r] is stamped [d] days before some reading of the clock of [w]. *)
Definition on_day (w : Generator.World) (d : Z) (r : Row) : Prop :=
  exists i, _time r = Generator.clock w i - timedelta_days d.

(** [s] is the dotted quad of an address of [net] other than its first
    and its last. *)
Definition inner_host (net : Generator.IPv4Network) (s : string) : Prop :=
  exists a,
    s = Generator.ip_str a /\
    Generator.network_address net < a < Generator.broadcast_address net.

Definition well_formed (r : Row) : Prop :=
  In (severity r) Generator.SEVERITIES /\
  In (status_label r) Generator.STATUS_LABELS /\
  inner_host Generator.SRC_NET (src r) /\
  inner_host Generator.DEST_NET (dest r).

(** Equality on src, dest, user, signature and severity. *)
Definition same_group (a b : Row) : bool :=
  String.eqb (src a) (src b) && String.eqb (dest a) (dest b)
  && String.eqb (user a) (user b) && String.eqb (signature a) (signature b)
  && String.eqb (severity a) (severity b).

(** Number of rows of [df] that agree with [r] on the grouping columns
    ([r] itself included when it is a row of [df]). *)
Definition group_size (r : Row) (df : DataFrame) : nat :=
  List.length (filter (same_group r) df).

(** The rows of [df] closed without escalation that agree on the
    grouping columns with a row at another position of [df]. *)
Definition closed_duplicates (df : DataFrame) : list Row :=
  filter (fun r => String.eqb (status_label r) CLOSED_WITHOUT
                   && (2 <=? group_size r df)%nat) df.

(** [a] and [b] agree on every column but [status_label]. *)
Definition same_but_status (a b : Row) : Prop :=
  _time a = _time b /\ src a = src b /\ dest a = dest b /\
  signature a = signature b /\ category a = category b /\
  file_name a = file_name b /\ severity a = severity b /\ user a = user b.

(** *** Summarizer *)

(** Total [alert_count] the table [counts] shows for the combination [k]. *)
Fixpoint alert_count (k : Summarizer.Key) (counts : list (Summarizer.Key * Z))
  : Z :=
  match counts with
  | [] => 0
  | (k', c) :: rest =>
      (if Summarizer.key_eqb k' k then c else 0) + alert_count k rest
  end.

(** Rows of the frame with combination [k] that pass the mask: their
    timestamp is at or after [cutoff] and their status is the string
    "closed without escalation". *)
Definition contributing (k : Summarizer.Key) (cutoff : Z)
           (df : list Summarizer.Alert) : list Summarizer.Alert :=
  filter (fun r => Summarizer.key_eqb (Summarizer.group_cols r) k
                   && Summarizer.filt cutoff r) df.

(** No cell of the combination is missing. *)
Definition complete (k : Summarizer.Key) : Prop :=
  Summarizer.has_na k = false.

(** *** Layout of the generator's base set *)

(** The readings the clock of [w] gives, now or later. *)
Definition readings (w : Generator.World) (t : Z) : Prop :=
  exists i, t = Generator.clock w i.

(** [r] is stamped [d] days before a clock reading that satisfies [P]. *)
Definition stamped (P : Z -> Prop) (d : Z) (r : Row) : Prop :=
  exists t, P t /\ _time r = t - timedelta_days d.

(** The rows one day of the outer loop adds: [per_day] of them, each
    stamped [offset] days back. *)
Definition day_block (P : Z -> Prop) (per_day : nat) (offset : Z)
           (block : list Row) : Prop :=
  List.length block = per_day /\
  Forall (fun r => well_formed r /\ stamped P offset r) block.

(** [base] is one block per day offset 0..89, in that order, followed by
    [extra] rows on day offsets drawn from 0..89. *)
Definition base_layout (P : Z -> Prop) (per_day extra_rows : nat)
           (base : list Row) : Prop :=
  exists blocks extra,
    base = List.concat blocks ++ extra /\
    Forall2 (day_block P per_day) (Generator.range 0 90) blocks /\
    List.length extra = extra_rows /\
    Forall (fun r => well_formed r /\
                     exists d, 0 <= d <= 89 /\ stamped P d r) extra.

(** [dupes] copy the rows [srcs], found at distinct positions of [base],
    in every column but the status, which is closed without escalation;
    [df] is [base] followed by [dupes], in some order. *)
Definition injected (base srcs dupes : list Row) (df : DataFrame) : Prop :=
  (exists rest, Permutation base (srcs ++ rest)) /\
  Forall2 (fun d s => same_but_status d s /\
                      status_label d = CLOSED_WITHOUT) dupes srcs /\
  Permutation df (base ++ dupes).

(** *** Sample inputs *)

(** A world for the generator: a fixed stream of raw draws and a clock
    that advances by one microsecond per reading. *)
Definition sample_world : Generator.World :=
  Generator.mkWorld (fun i => (N.of_nat i * 7919 + 13)%N)
                    (fun i => 63929260800000000 + Z.of_nat i) [] []
                    (fun _ _ => Generator.Accepted) (fun _ => None).

Definition sample_table (rows : Z) : DataFrame :=
  match fst (Generator.generate_notables rows sample_world) with
  | Ok df => df
  | Raise _ => []
  end.

Definition table_100 : DataFrame := Eval vm_compute in sample_table 100.

(** *** What one run of the summarizer shows *)

(** Exit status and console of [main] once the arguments are parsed,
    the file is read, the cutoff is computed and the mask is applied:
    the three ways it can end. *)
Definition console (cutoff min_cluster : Z) (df : list Summarizer.Alert)
  : Z * list Summarizer.Out :=
  let focus := Summarizer.focus_of cutoff df in
  if Summarizer.is_empty focus then
    (0, [Summarizer.Text Summarizer.MSG_NO_ALERTS])
  else
    let summary := Summarizer.summary_of min_cluster focus in
    if Summarizer.is_empty summary then
      (0, [Summarizer.Text (Summarizer.msg_no_clusters min_cluster)])
    else
      (0, [Summarizer.Text Summarizer.MSG_HEADER; Summarizer.Table summary]).

(** A run gets as far as the table: the arguments parse, leaving the
    globals of [g]; the file is read as the frame [df]; the cutoff is
    computed as [cutoff]; and lines 43-44 raise nothing. *)
Definition reaches_table (argv : list string)
           (disk : string -> option (Res Summarizer.Frame)) (clk : nat -> Z)
           (g : Summarizer.World) (df : Summarizer.Frame) (cutoff : Z) : Prop :=
  Summarizer.parse_cli argv (Summarizer.boot disk clk) = (Ok tt, g) /\
  disk (Summarizer.CSV_IN g) = Some (Ok df) /\
  Summarizer.cutoff_of (clk 0%nat) (Summarizer.LOOKBACK_DAYS g) = Ok cutoff /\
  Summarizer.mask_error df cutoff = None.

(** A frame of three alerts stamped at the instant [sample_now], two of
    them alike, and a disk that holds it. *)
Definition sample_now : Z := 63929260800000000.

Definition sample_alert (u : Summarizer.Cell) (status : string)
  : Summarizer.Alert :=
  Summarizer.mkAlert (Some sample_now)
    (Summarizer.Str "10.0.1.5") (Summarizer.Str "192.168.2.3") u
    (Summarizer.Str "EICAR-TEST-FILE") (Summarizer.Str "low")
    (Summarizer.Str status).

Definition sample_file : list Summarizer.Alert :=
  [sample_alert (Summarizer.Str "CORP\user001") CLOSED_WITHOUT;
   sample_alert (Summarizer.Str "CORP\user002") CLOSED_WITHOUT;
   sample_alert (Summarizer.Str "CORP\user001") CLOSED_WITHOUT].

(** A frame on which lines 43-44 never raise. *)
Definition plain (rows : list Summarizer.Alert) : Summarizer.Frame :=
  Summarizer.mkFrame (fun _ => None) rows.

Definition sample_disk (path : string) : option (Res Summarizer.Frame) :=
  if String.eqb path "notables.csv" then Some (Ok (plain sample_file))
  else None.

(** Two alerts that pass the mask but whose user cell is missing. *)
Definition gap_file : list Summarizer.Alert :=
  [sample_alert Summarizer.NA CLOSED_WITHOUT;
   sample_alert Summarizer.NA CLOSED_WITHOUT].

Definition gap_disk (path : string) : option (Res Summarizer.Frame) :=
  if String.eqb path "notables.csv" then Some (Ok (plain gap_file))
  else None.

(** The three alerts of [sample_file] and the two of [gap_file] in one
    frame. *)
Definition mixed_file : list Summarizer.Alert := sample_file ++ gap_file.

Definition mixed_disk (path : string) : option (Res Summarizer.Frame) :=
  if String.eqb path "notables.csv" then Some (Ok (plain mixed_file))
  else None.

(** [sample_file] followed by three alerts stamped ten days earlier. *)
Definition old_alert (u : string) : Summarizer.Alert :=
  Summarizer.mkAlert (Some (sample_now - timedelta_days 10))
    (Summarizer.Str "10.0.1.5") (Summarizer.Str "192.168.2.3")
    (Summarizer.Str u)
    (Summarizer.Str "EICAR-TEST-FILE") (Summarizer.Str "low")
    (Summarizer.Str CLOSED_WITHOUT).

Definition aged_file : list Summarizer.Alert :=
  sample_file ++ [old_alert "CORP\user002"; old_alert "CORP\user002";
                  old_alert "CORP\user001"].

Definition aged_disk (path : string) : option (Res Summarizer.Frame) :=
  if String.eqb path "notables.csv" then Some (Ok (plain aged_file))
  else None.

(** [sample_disk] with the rows of its file in reverse order. *)
Definition turned_disk (path : string) : option (Res Summarizer.Frame) :=
  if String.eqb path "notables.csv" then Some (Ok (plain (rev sample_file)))
  else None.


(** One order of a frame against another: the same rows in some order,
    and lines 43-44 raising alike. *)
Definition reordered (f f' : Summarizer.Frame) : Prop :=
  Permutation (Summarizer.rows f) (Summarizer.rows f') /\
  forall c, Summarizer.mask_error f c = Summarizer.mask_error f' c.

(** *** Further vocabulary *)

(** No constraint on the clock. *)
Definition anytime : Z -> Prop := fun _ => True.

(** [s] is [prefix] followed by two octets in decimal, a dot between. *)
Definition two_octets (prefix s : string) : Prop :=
  exists c d,
    0 <= c <= 255 /\ 0 <= d <= 255 /\
    s = (prefix ++ Py.str c ++ "." ++ Py.str d)%string.

(** The four columns [synth_row] draws with [random.choice]. *)
Definition from_pools (r : Row) : Prop :=
  In (signature r) Generator.SIGNATURES /\
  In (category r) Generator.CATEGORIES /\
  In (file_name r) Generator.FILENAMES /\
  In (user r) Generator.USERS.

(** Sum of the [alert_count] column. *)
Definition total_count (counts : list (Summarizer.Key * Z)) : Z :=
  fold_right (fun kc acc => snd kc + acc) 0 counts.

(** Largest count first. *)
Definition descending (counts : list (Summarizer.Key * Z)) : Prop :=
  StronglySorted (fun a b => snd b <= snd a) counts.

(** A world for the generator whose clock stands still. *)
Definition steady_world : Generator.World :=
  Generator.mkWorld (fun i => (N.of_nat i * 104729 + 7)%N)
                    (fun _ => sample_now) [] []
                    (fun _ _ => Generator.Accepted) (fun _ => None).

Definition steady_table (rows : Z) : DataFrame :=
  match fst (Generator.generate_notables rows steady_world) with
  | Ok df => df
  | Raise _ => []
  end.

Definition table_steady : DataFrame := Eval vm_compute in steady_table 95.

(** A world like [steady_world] whose console cannot encode the arrow
    of the line the generator prints. *)
Definition mute_world : Generator.World :=
  Generator.mkWorld (fun i => (N.of_nat i * 104729 + 7)%N)
                    (fun _ => sample_now) [] []
                    (fun _ _ => Generator.Accepted)
                    (fun _ => Some (Other "UnicodeEncodeError")).

(** The path [main] of the generator writes to. *)
Definition out_path (argv : list string) : string :=
  match nth_error argv 2 with
  | Some p => Generator.Path p
  | None => Generator.CSV_OUT
  end.

(** The line [main] of the generator prints for a table of [n] rows. *)
Definition wrote_line (n : nat) (out : string) : string :=
  ("[+] Wrote " ++ Generator.fmt_thousands (Z.of_nat n)
   ++ " notables → " ++ out)%string.

(** The row count [main] of the generator works with. *)
Definition requested (argv : list string) (rows : Z) : Prop :=
  match nth_error argv 1 with
  | Some a => Py.int a = Ok rows
  | None => rows = Generator.ROWS_DEFAULT
  end.

(* ================================================================= *)
(** ** Arithmetic of the duplicate count *)

Section DupeCount.

Import Generator.

(** What [round53] returns on a positive mantissa below [2^b]: at most
    [b - 53] low bits are dropped and the kept mantissa is the quotient
    or its successor. *)
Lemma round53_bounds (m e b : Z) :
  0 < m < 2 ^ b -> 53 <= b ->
  exists d q,
    round53 m e = (q, e + d) /\ 0 <= d <= b - 53 /\
    m / 2 ^ d <= q <= m / 2 ^ d + 1 /\ (d = 0 -> q = m).
Proof.
  intros Hm Hb.
  assert (Hlog : Z.log2 m < b) by (apply Z.log2_lt_pow2; lia).
  pose proof (Z.log2_nonneg m) as Hnn.
  unfold round53.
  destruct (Z.leb_spec (Z.log2 m + 1 - 53) 0) as [Hd | Hd].
  - exists 0, m. rewrite Z.add_0_r, Z.pow_0_r, Z.div_1_r.
    repeat split; lia.
  - set (d := Z.log2 m + 1 - 53) in *.
    exists d.
    destruct (m mod 2 ^ d <? 2 ^ (d - 1));
      [ | destruct (2 ^ (d - 1) <? m mod 2 ^ d);
          [ | destruct (Z.even (m / 2 ^ d)) ] ];
      eexists; (split; [ reflexivity | ]); repeat split; lia.
Qed.

(** Below 2^48 rows the double product [rows * 0.05], truncated, is the
    integer quotient by 20. *)
Lemma dupe_count_of_exact (rows : Z) :
  0 <= rows < 2 ^ 48 -> dupe_count_of rows = Ok (rows / 20).
Proof.
  intros Hr.
  unfold dupe_count_of, float_of_int.
  rewrite Z.abs_eq by lia.
  destruct (Z.eq_dec rows 0) as [-> | Hz].
  { reflexivity. }
  assert (Hpos : 0 < rows) by lia.
  assert (H53 : 0 < rows < 2 ^ 53).
  { split; [ lia | ].
    eapply Z.lt_le_trans; [ apply Hr | ]. apply Z.pow_le_mono_r; lia. }
  destruct (round53_bounds rows 0 53 H53 ltac:(lia))
    as (d0 & q0 & E & Hd & _ & Hq).
  clear H53.
  assert (d0 = 0) by lia. subst d0. rewrite (Hq eq_refl) in E.
  rewrite E. clear E Hq Hd q0.
  assert (Hlog : Z.log2 rows < 48) by (apply Z.log2_lt_pow2; lia).
  replace ((rows =? 0) || (Z.log2 rows + (0 + 0) <? 1024)) with true.
  2:{ symmetry. apply orb_true_iff. right. apply Z.ltb_lt. lia. }
  rewrite Z.sgn_pos by lia. rewrite Z.mul_1_l.
  unfold PROOF_DUPLICATE_RATIO, float_mul.
  rewrite Z.abs_eq by lia.
  change (Z.abs 7205759403792794) with 7205759403792794.
  change (Z.sgn 7205759403792794) with 1.
  rewrite Z.sgn_pos by lia.
  set (P := rows * 7205759403792794).
  assert (HP : 0 < P < 2 ^ 101).
  { unfold P. split; [ lia | ].
    change (2 ^ 101) with (2 ^ 48 * 2 ^ 53).
    apply Z.mul_lt_mono_nonneg; lia. }
  destruct (round53_bounds P (0 + 0 + -57) 101 HP ltac:(lia))
    as (d & q & E & Hd & Hq & _).
  rewrite E. unfold int_of_float.
  replace (0 <=? 0 + 0 + -57 + d) with false by (symmetry; apply Z.leb_gt; lia).
  replace (- (0 + 0 + -57 + d)) with (57 - d) by lia.
  replace (1 * 1 * q) with q by lia.
  set (D := 2 ^ d) in *. set (S := 2 ^ (57 - d)).
  assert (HD : 1 <= D <= 2 ^ 48).
  { unfold D. split.
    - apply (Z.pow_le_mono_r 2 0 d); lia.
    - apply Z.pow_le_mono_r; lia. }
  assert (HS : 0 < S) by (unfold S; apply Z.pow_pos_nonneg; lia).
  assert (HDS : D * S = 144115188075855872).
  { unfold D, S. rewrite <- Z.pow_add_r by lia.
    replace (d + (57 - d)) with 57 by lia. reflexivity. }
  change (2 ^ 48) with 281474976710656 in *.
  pose proof (Z.div_mod rows 20 ltac:(lia)) as Hk.
  pose proof (Z.mod_pos_bound rows 20 ltac:(lia)) as Hj.
  set (k := rows / 20) in *. set (j := rows mod 20) in *.
  assert (Hk0 : 0 <= k) by (unfold k; apply Z.div_pos; lia).
  assert (Hlo : k * S <= P / D).
  { apply Z.div_le_lower_bound; [ lia | ].
    replace (D * (k * S)) with (k * (D * S)) by ring.
    rewrite HDS. unfold P. lia. }
  assert (Hhi : P / D < (k + 1) * S - 1).
  { apply Z.div_lt_upper_bound; [ lia | ].
    replace (D * ((k + 1) * S - 1)) with ((k + 1) * (D * S) - D) by ring.
    rewrite HDS. unfold P. lia. }
  assert (Hq0 : 0 <= q) by lia.
  rewrite Z.quot_div_nonneg by lia.
  f_equal. symmetry. apply Z.div_unique with (r := q - k * S); lia.
Qed.

End DupeCount.

(* ================================================================= *)
(** ** The generator's primitives *)

Section GeneratorTriples.

Import Generator.

Variable P : Z -> Prop.

Lemma yields_ret {A} (a : A) (Q : A -> Prop) : Q a -> yields P (ret a) Q.
Proof. intros Ha w Hw. exists a, w. auto. Qed.

Lemma yields_bind {A B} (m : G A) (k : A -> G B) (Q : A -> Prop) (R : B -> Prop) :
  yields P m Q -> (forall a, Q a -> yields P (k a) R) -> yields P (bind m k) R.
Proof.
  intros Hm Hk w Hw.
  destruct (Hm w Hw) as (a & w1 & E & Hw1 & Ha).
  destruct (Hk a Ha w1 Hw1) as (b & w2 & E2 & Hw2 & Hb).
  exists b, w2. unfold bind. rewrite E. auto.
Qed.

Lemma yields_weaken {A} (m : G A) (Q R : A -> Prop) :
  yields P m Q -> (forall a, Q a -> R a) -> yields P m R.
Proof.
  intros Hm HQR w Hw.
  destruct (Hm w Hw) as (a & w1 & E & Hw1 & Ha). eauto 6.
Qed.

Lemma yields_lift {A} (a : A) (Q : A -> Prop) : Q a -> yields P (lift (Ok a)) Q.
Proof. intros Ha w Hw. exists a, w. auto. Qed.

Lemma yields_draw : yields P draw (fun _ => True).
Proof. intros w Hw. eexists _, _. split; [ reflexivity | ]. split; auto. Qed.

Lemma yields_today : yields P datetime_today P.
Proof.
  intros w Hw. eexists _, _. split; [ reflexivity | ].
  split; [ intro i; apply Hw | apply Hw ].
Qed.

Lemma yields_randbelow (n : nat) :
  (0 < n)%nat -> yields P (randbelow n) (fun i => (i < n)%nat).
Proof.
  intros Hn. unfold randbelow.
  eapply yields_bind; [ apply yields_draw | ].
  intros x _. apply yields_ret.
  assert (x mod N.of_nat n < N.of_nat n)%N by (apply N.mod_lt; lia).
  lia.
Qed.

Lemma yields_randint (a b : Z) :
  a <= b -> yields P (randint a b) (fun x => a <= x <= b).
Proof.
  intros Hab. unfold randint.
  replace (b <? a) with false by (symmetry; apply Z.ltb_ge; lia).
  eapply yields_bind; [ apply yields_randbelow; lia | ].
  intros i Hi. cbv beta in Hi. apply yields_ret. lia.
Qed.

Lemma yields_choice {A} (l : list A) :
  l <> [] -> yields P (choice l) (fun x => In x l).
Proof.
  intros Hl. unfold choice. destruct l as [ | a0 l0 ]; [ congruence | ].
  eapply yields_bind; [ apply yields_randbelow; simpl; lia | ].
  intros i Hi. cbv beta in Hi |- *.
  destruct (nth_error (a0 :: l0) i) as [ x | ] eqn:E.
  - apply yields_ret. eapply nth_error_In; eauto.
  - apply nth_error_None in E. lia.
Qed.

Lemma bisect_lt (weights : list Z) :
  forall v, 0 <= v < fold_right Z.add 0 weights ->
            (bisect weights v < List.length weights)%nat.
Proof.
  induction weights as [ | w ws IH ]; simpl; intros v Hv; [ lia | ].
  destruct (Z.ltb_spec v w); [ lia | ].
  apply -> Nat.succ_lt_mono. apply IH. lia.
Qed.

Lemma yields_choices {A} (population : list A) (weights : list Z) :
  List.length weights = List.length population ->
  0 < fold_right Z.add 0 weights ->
  yields P (choices population weights) (fun x => In x population).
Proof.
  intros Hlen Htot. unfold choices.
  rewrite Hlen, Nat.eqb_refl. cbn [negb].
  replace (fold_right Z.add 0 weights <=? 0) with false
    by (symmetry; apply Z.leb_gt; lia).
  eapply yields_bind; [ apply yields_randbelow; lia | ].
  intros i Hi. cbv beta in Hi |- *.
  destruct (nth_error population (bisect weights (Z.of_nat i))) as [ x | ] eqn:E.
  - apply yields_ret. eapply nth_error_In; eauto.
  - apply nth_error_None in E.
    pose proof (bisect_lt weights (Z.of_nat i) ltac:(lia)). lia.
Qed.

(** [random_ip] on a network of at least three addresses. *)
Lemma yields_random_ip (net : IPv4Network) :
  3 <= num_addresses net -> yields P (random_ip net) (inner_host net).
Proof.
  intros Hnet. unfold random_ip.
  eapply yields_bind; [ apply yields_randint; lia | ].
  intros h Hh. cbv beta in Hh |- *.
  unfold net_getitem, broadcast_address.
  replace (0 <=? h) with true by (symmetry; apply Z.leb_le; lia).
  replace (network_address net + num_addresses net - 1 <? network_address net + h)
    with false by (symmetry; apply Z.ltb_ge; lia).
  eapply yields_bind;
    [ apply (yields_lift _ (fun a => a = network_address net + h)); reflexivity | ].
  intros a ->. apply yields_ret.
  exists (network_address net + h). unfold broadcast_address. split; [ reflexivity | lia ].
Qed.

End GeneratorTriples.

(* ================================================================= *)
(** ** The generator's loops *)

Section GeneratorLoops.

Import Generator.

Variable P : Z -> Prop.

Lemma yields_synth_row (d : Z) :
  yields P (synth_row d) (fun r => well_formed r /\ stamped P d r).
Proof.
  unfold synth_row.
  eapply yields_bind; [ apply yields_today | ]. intros t Ht.
  eapply yields_bind; [ apply yields_random_ip; vm_compute; discriminate | ].
  intros s Hs.
  eapply yields_bind; [ apply yields_random_ip; vm_compute; discriminate | ].
  intros d' Hd'.
  eapply yields_bind; [ apply yields_choice; discriminate | ]. intros sig _.
  eapply yields_bind; [ apply yields_choice; discriminate | ]. intros cat _.
  eapply yields_bind; [ apply yields_choice; discriminate | ]. intros fn _.
  eapply yields_bind;
    [ apply yields_choices; [ reflexivity | reflexivity ] | ]. intros sev Hsev.
  eapply yields_bind; [ apply yields_choice; discriminate | ]. intros u _.
  eapply yields_bind;
    [ apply yields_choices; [ reflexivity | reflexivity ] | ]. intros st Hst.
  apply yields_ret. split.
  - repeat split; assumption.
  - exists t. split; [ assumption | reflexivity ].
Qed.

Lemma yields_append_rows (mk : G Row) (Q : Row -> Prop) :
  yields P mk Q ->
  forall n records,
    yields P (append_rows n mk records)
           (fun out => exists new,
                out = records ++ new /\ List.length new = n /\ Forall Q new).
Proof.
  intros Hmk. induction n as [ | n IH ]; intros records; simpl.
  - apply yields_ret. exists []. rewrite app_nil_r. auto.
  - eapply yields_bind; [ apply Hmk | ]. intros r Hr.
    eapply yields_weaken; [ apply IH | ].
    intros out (new & -> & Hlen & Hall).
    exists (r :: new). rewrite <- app_assoc. simpl.
    repeat split; auto.
Qed.

Lemma yields_for_days (per_day : nat) :
  forall offsets records,
    yields P (for_days offsets per_day records)
           (fun out => exists blocks,
                out = records ++ List.concat blocks /\
                Forall2 (day_block P per_day) offsets blocks).
Proof.
  induction offsets as [ | offset rest IH ]; intros records; simpl.
  - apply yields_ret. exists []. simpl. rewrite app_nil_r. auto.
  - eapply yields_bind;
      [ apply yields_append_rows; apply yields_synth_row | ].
    intros records' (block & -> & Hlen & Hall).
    eapply yields_weaken; [ apply IH | ].
    intros out (blocks & -> & Hblocks).
    exists (block :: blocks). simpl. rewrite <- app_assoc.
    split; [ reflexivity | ].
    constructor; [ split; assumption | assumption ].
Qed.

Lemma yields_base_records (rows : Z) :
  yields P (base_records rows)
         (base_layout P (Z.to_nat (per_day_of rows))
                        (Z.to_nat (remainder_of rows))).
Proof.
  unfold base_records.
  eapply yields_bind; [ apply yields_for_days | ].
  intros records (blocks & -> & Hblocks).
  eapply yields_weaken.
  - apply yields_append_rows
      with (Q := fun r => well_formed r /\
                          exists d, 0 <= d <= 89 /\ stamped P d r).
    eapply yields_bind; [ apply yields_randint; lia | ].
    intros d Hd.
    eapply yields_weaken; [ apply yields_synth_row | ].
    intros r (Hwf & Hst). split; [ assumption | ].
    exists d. split; [ exact Hd | exact Hst ].
  - intros out (extra & -> & Hlen & Hall).
    exists blocks, extra. simpl. auto.
Qed.

Lemma nth_error_cut {A} (l : list A) :
  forall i x, nth_error l i = Some x ->
              l = firstn i l ++ x :: skipn (S i) l.
Proof.
  induction l as [ | a l IH ]; intros [ | i ] x E; simpl in *; try discriminate.
  - congruence.
  - f_equal. apply IH. assumption.
Qed.

Lemma yields_take_random :
  forall k pool,
    (k <= List.length pool)%nat ->
    yields P (take_random k pool)
           (fun l => List.length l = k /\
                     exists rest, Permutation pool (l ++ rest)).
Proof.
  induction k as [ | k IH ]; intros pool Hk; cbn [take_random].
  - apply yields_ret. split; [ reflexivity | ]. exists pool. reflexivity.
  - eapply yields_bind; [ apply yields_randbelow; lia | ].
    intros i Hi. cbv beta in Hi |- *.
    destruct (nth_error pool i) as [ r | ] eqn:E.
    2:{ apply nth_error_None in E. lia. }
    pose proof (nth_error_cut pool i r E) as Hcut.
    assert (Hlen : List.length (firstn i pool ++ skipn (S i) pool)
                   = (List.length pool - 1)%nat).
    { rewrite length_app, length_firstn, length_skipn. lia. }
    eapply yields_bind; [ apply IH; lia | ].
    intros l (Hl & rest & Hperm). apply yields_ret.
    split; [ simpl; lia | ].
    exists rest. rewrite Hcut at 1. cbn [app].
    rewrite <- Hperm. symmetry. apply Permutation_middle.
Qed.

Lemma yields_sample_all (df : DataFrame) :
  yields P (sample_all df) (fun out => Permutation out df).
Proof.
  eapply yields_weaken; [ apply yields_take_random; lia | ].
  intros l (Hl & rest & Hperm).
  assert (rest = []).
  { apply Permutation_length in Hperm. rewrite length_app in Hperm.
    destruct rest; [ reflexivity | simpl in Hperm; lia ]. }
  subst rest. rewrite app_nil_r in Hperm. symmetry. assumption.
Qed.

End GeneratorLoops.

(* ================================================================= *)
(** ** Generating rows touches neither the files nor the console *)

Section GeneratorFrame.

Import Generator.

Lemma quiet_ret {A} (a : A) : quiet (ret a).
Proof. intros w. repeat split; reflexivity. Qed.

Lemma quiet_raise {A} (e : Exn) : quiet (raise e : G A).
Proof. intros w. repeat split; reflexivity. Qed.

Lemma quiet_lift {A} (r : Res A) : quiet (lift r).
Proof. intros w. repeat split; reflexivity. Qed.

Lemma quiet_draw : quiet draw.
Proof. intros w. repeat split; reflexivity. Qed.

Lemma quiet_today : quiet datetime_today.
Proof. intros w. repeat split; reflexivity. Qed.

Lemma quiet_bind {A B} (m : G A) (k : A -> G B) :
  quiet m -> (forall a, quiet (k a)) -> quiet (bind m k).
Proof.
  intros Hm Hk w. unfold bind.
  specialize (Hm w). destruct (m w) as [[a | e] w1]; simpl in Hm.
  - specialize (Hk a w1).
    destruct Hk as (Hf & Hs & Hd & Hc). destruct Hm as (Hf' & Hs' & Hd' & Hc').
    repeat split; congruence.
  - exact Hm.
Qed.

Create HintDb quiet.
#[local] Hint Resolve quiet_ret quiet_raise quiet_lift quiet_draw quiet_today
  quiet_bind : quiet.

Lemma quiet_randbelow (n : nat) : quiet (randbelow n).
Proof. unfold randbelow. auto with quiet. Qed.
#[local] Hint Resolve quiet_randbelow : quiet.

Lemma quiet_randint (a b : Z) : quiet (randint a b).
Proof. unfold randint. destruct (b <? a); auto with quiet. Qed.
#[local] Hint Resolve quiet_randint : quiet.

Lemma quiet_choice {A} (l : list A) : quiet (choice l).
Proof.
  unfold choice. destruct l; [ auto with quiet | ].
  apply quiet_bind; [ auto with quiet | ].
  intros i. destruct (nth_error _ i); auto with quiet.
Qed.
#[local] Hint Resolve quiet_choice : quiet.

Lemma quiet_choices {A} (population : list A) (weights : list Z) :
  quiet (choices population weights).
Proof.
  unfold choices.
  destruct (negb _); [ auto with quiet | ].
  destruct (_ <=? 0); [ auto with quiet | ].
  apply quiet_bind; [ auto with quiet | ].
  intros i. destruct (nth_error _ _); auto with quiet.
Qed.
#[local] Hint Resolve quiet_choices : quiet.

Lemma quiet_random_ip (net : IPv4Network) : quiet (random_ip net).
Proof. unfold random_ip. auto 6 with quiet. Qed.
#[local] Hint Resolve quiet_random_ip : quiet.

Lemma quiet_synth_row (d : Z) : quiet (synth_row d).
Proof.
  unfold synth_row.
  repeat (apply quiet_bind; [ auto with quiet | intro ]).
  apply quiet_ret.
Qed.
#[local] Hint Resolve quiet_synth_row : quiet.

Lemma quiet_append_rows (mk : G Row) :
  quiet mk -> forall n records, quiet (append_rows n mk records).
Proof.
  intros Hmk. induction n as [ | n IH ]; intros records; simpl;
    auto with quiet.
Qed.

Lemma quiet_for_days (per_day : nat) :
  forall offsets records, quiet (for_days offsets per_day records).
Proof.
  induction offsets as [ | offset rest IH ]; intros records; simpl.
  - auto with quiet.
  - apply quiet_bind; [ | auto ].
    apply quiet_append_rows. auto with quiet.
Qed.

Lemma quiet_base_records (rows : Z) : quiet (base_records rows).
Proof.
  unfold base_records.
  apply quiet_bind; [ apply quiet_for_days | ].
  intros records. apply quiet_append_rows. auto with quiet.
Qed.

Lemma quiet_take_random :
  forall k pool, quiet (take_random k pool).
Proof.
  induction k as [ | k IH ]; intros pool; cbn [take_random].
  - auto with quiet.
  - apply quiet_bind; [ auto with quiet | ].
    intros i. destruct (nth_error pool i); auto with quiet.
Qed.

Lemma quiet_generate_notables (rows : Z) : quiet (generate_notables rows).
Proof.
  unfold generate_notables.
  apply quiet_bind; [ apply quiet_base_records | ]. intros base.
  apply quiet_bind; [ apply quiet_lift | ]. intros dc.
  apply quiet_bind; [ | intros df; apply quiet_take_random ].
  destruct (dc =? 0); [ apply quiet_ret | ].
  apply quiet_bind; [ | intros; apply quiet_ret ].
  unfold dupe_rows, sample.
  apply quiet_bind; [ | intros; apply quiet_ret ].
  destruct (dc <? 0); [ apply quiet_raise | ].
  destruct (_ <? dc); [ apply quiet_raise | apply quiet_take_random ].
Qed.

End GeneratorFrame.

(* ================================================================= *)
(** ** Shape of what [generate_notables] returns *)

Section GenerateNotables.

Import Generator.

Lemma bind_ok {W A B} (m : M W A) (k : A -> M W B) w a w' :
  m w = (Ok a, w') -> bind m k w = k a w'.
Proof. intros E. unfold bind. rewrite E. reflexivity. Qed.

Lemma bind_raise {W A B} (m : M W A) (k : A -> M W B) w e w' :
  m w = (Raise e, w') -> bind m k w = (Raise e, w').
Proof. intros E. unfold bind. rewrite E. reflexivity. Qed.

Lemma clock_ok_readings (w : World) : clock_ok (readings w) w.
Proof. intros i. exists i. reflexivity. Qed.

Lemma forced_status_copy (srcs : list Row) :
  Forall2 (fun d s => same_but_status d s /\ status_label d = CLOSED_WITHOUT)
          (map (set_status CLOSED_WITHOUT) srcs) srcs.
Proof.
  induction srcs as [ | s srcs IH ]; simpl; constructor; auto.
  split; [ | reflexivity ]. unfold same_but_status. simpl. tauto.
Qed.

(** Every way a call of [generate_notables] can end. *)
Lemma generate_notables_cases (P : Z -> Prop) (rows : Z) (w : World) :
  clock_ok P w ->
  exists base w1,
    base_records rows w = (Ok base, w1) /\
    base_layout P (Z.to_nat (per_day_of rows)) (Z.to_nat (remainder_of rows)) base /\
    match dupe_count_of rows with
    | Raise e => fst (generate_notables rows w) = Raise e
    | Ok dc =>
        if dc =? 0 then
          exists df, fst (generate_notables rows w) = Ok df /\
                     injected base [] [] df
        else if (dc <? 0) || (Z.of_nat (List.length base) <? dc) then
          fst (generate_notables rows w) = Raise ValueError
        else
          exists df srcs dupes,
            fst (generate_notables rows w) = Ok df /\
            List.length srcs = Z.to_nat dc /\
            injected base srcs dupes df
    end.
Proof.
  intros Hw.
  destruct (yields_base_records P rows w Hw) as (base & w1 & E & Hw1 & Hbase).
  exists base, w1. split; [ exact E | ]. split; [ exact Hbase | ].
  unfold generate_notables. rewrite (bind_ok _ _ _ _ _ E).
  destruct (dupe_count_of rows) as [ dc | e ]; [ | reflexivity ].
  rewrite (bind_ok _ _ w1 dc w1) by reflexivity.
  destruct (dc =? 0).
  - rewrite (bind_ok _ _ w1 base w1) by reflexivity.
    destruct (yields_sample_all P base w1 Hw1) as (df & w2 & E2 & _ & Hperm).
    exists df. rewrite E2. split; [ reflexivity | ].
    split; [ exists base; reflexivity | ].
    split; [ constructor | rewrite app_nil_r; exact Hperm ].
  - unfold dupe_rows, sample.
    destruct (Z.ltb_spec dc 0) as [ Hneg | Hnn ]; cbn [orb].
    { reflexivity. }
    destruct (Z.ltb_spec (Z.of_nat (List.length base)) dc) as [ Hbig | Hfit ].
    { reflexivity. }
    destruct (yields_take_random P (Z.to_nat dc) base ltac:(lia) w1 Hw1)
      as (srcs & w2 & E2 & Hw2 & Hlen & Hsub).
    set (dupes := map (set_status CLOSED_WITHOUT) srcs).
    assert (E3 : bind (bind (take_random (Z.to_nat dc) base)
                            (fun dupe_sample =>
                               ret (map (set_status CLOSED_WITHOUT) dupe_sample)))
                      (fun dupes => ret (base ++ dupes)) w1
                 = (Ok (base ++ dupes), w2)).
    { erewrite bind_ok; [ reflexivity | ].
      erewrite bind_ok; [ reflexivity | exact E2 ]. }
    rewrite (bind_ok _ _ _ _ _ E3).
    destruct (yields_sample_all P (base ++ dupes) w2 Hw2)
      as (df & w3 & E4 & _ & Hperm).
    exists df, srcs, dupes. rewrite E4.
    split; [ reflexivity | ]. split; [ exact Hlen | ].
    split; [ exact Hsub | ].
    split; [ apply forced_status_copy | exact Hperm ].
Qed.

(** A call that returns has the shape the source spells out. *)
Lemma generate_notables_returned (rows : Z) (w : World) (df : DataFrame) :
  fst (generate_notables rows w) = Ok df ->
  exists base srcs dupes dc,
    fst (base_records rows w) = Ok base /\
    base_layout (readings w) (Z.to_nat (per_day_of rows))
                (Z.to_nat (remainder_of rows)) base /\
    dupe_count_of rows = Ok dc /\ 0 <= dc /\
    List.length srcs = Z.to_nat dc /\
    injected base srcs dupes df.
Proof.
  intros Hdf.
  destruct (generate_notables_cases (readings w) rows w (clock_ok_readings w))
    as (base & w1 & E & Hbase & Hcases).
  destruct (dupe_count_of rows) as [ dc | e ]; [ | congruence ].
  destruct (Z.eqb_spec dc 0) as [ Hz | Hnz ].
  - destruct Hcases as (df' & E' & Hinj).
    exists base, [], [], dc. rewrite E, Hz. simpl.
    replace df with df' by congruence.
    repeat split; try reflexivity; try lia; try apply Hinj. exact Hbase.
  - destruct ((dc <? 0) || (Z.of_nat (List.length base) <? dc)) eqn:Hguard;
      [ congruence | ].
    apply orb_false_iff in Hguard. destruct Hguard as [ Hnn _ ].
    apply Z.ltb_ge in Hnn.
    destruct Hcases as (df' & srcs & dupes & E' & Hlen & Hinj).
    exists base, srcs, dupes, dc. rewrite E. simpl.
    replace df with df' by congruence.
    repeat split; try reflexivity; try lia; try apply Hinj. exact Hbase.
Qed.

Lemma day_blocks_length (P : Z -> Prop) (per_day : nat) :
  forall offsets blocks,
    Forall2 (day_block P per_day) offsets blocks ->
    List.length (List.concat blocks) = (List.length offsets * per_day)%nat.
Proof.
  induction 1 as [ | offset block offsets blocks [Hlen _] _ IH ]; simpl.
  - reflexivity.
  - rewrite length_app, IH, Hlen. reflexivity.
Qed.

Lemma base_layout_length (P : Z -> Prop) (per_day extra_rows : nat) base :
  base_layout P per_day extra_rows base ->
  List.length base = (90 * per_day + extra_rows)%nat.
Proof.
  intros (blocks & extra & -> & Hblocks & Hextra & _).
  rewrite length_app, (day_blocks_length _ _ _ _ Hblocks), Hextra.
  reflexivity.
Qed.

(** Size of the base set: the request, but never under one row a day. *)
Lemma base_size (rows : Z) :
  0 <= rows ->
  Z.of_nat (90 * Z.to_nat (per_day_of rows) + Z.to_nat (remainder_of rows))
  = Z.max rows 90.
Proof.
  intros Hrows. unfold remainder_of, per_day_of.
  pose proof (Z.div_mod rows 90 ltac:(lia)) as Hdm.
  pose proof (Z.mod_pos_bound rows 90 ltac:(lia)) as Hmod.
  assert (0 <= rows / 90) by (apply Z.div_pos; lia).
  destruct (Z.eqb_spec (rows / 90) 0) as [ Hz | Hnz ]; lia.
Qed.

(** Under 2^48 requested rows the call returns. *)
Lemma generate_notables_total (rows : Z) (w : World) :
  0 <= rows < 2 ^ 48 ->
  exists df base srcs dupes,
    fst (generate_notables rows w) = Ok df /\
    fst (base_records rows w) = Ok base /\
    base_layout (readings w) (Z.to_nat (per_day_of rows))
                (Z.to_nat (remainder_of rows)) base /\
    List.length srcs = Z.to_nat (rows / 20) /\
    injected base srcs dupes df.
Proof.
  intros Hrows.
  destruct (generate_notables_cases (readings w) rows w (clock_ok_readings w))
    as (base & w1 & E & Hbase & Hcases).
  rewrite (dupe_count_of_exact rows Hrows) in Hcases.
  pose proof (base_layout_length _ _ _ _ Hbase) as Hlen.
  pose proof (base_size rows ltac:(lia)) as Hsize.
  assert (Hq : 0 <= rows / 20 <= rows).
  { split; [ apply Z.div_pos; lia | ].
    apply Z.div_le_upper_bound; lia. }
  destruct (Z.eqb_spec (rows / 20) 0) as [ Hz | Hnz ].
  - destruct Hcases as (df & E' & Hinj).
    exists df, base, [], []. rewrite E, Hz. simpl. auto.
  - replace ((rows / 20 <? 0) || (Z.of_nat (List.length base) <? rows / 20))
      with false in Hcases.
    2:{ symmetry. apply orb_false_iff. split; apply Z.ltb_ge; lia. }
    destruct Hcases as (df & srcs & dupes & E' & Hl & Hinj).
    exists df, base, srcs, dupes. rewrite E. simpl. auto.
Qed.

End GenerateNotables.

(* ================================================================= *)
(** ** Counting rows of the generated table *)

Section GeneratorCounting.

Import Generator.

Lemma same_but_status_group (d s : Row) :
  same_but_status d s -> same_group d s = true.
Proof.
  intros (_ & Hsrc & Hdest & Hsig & _ & _ & Hsev & Huser).
  unfold same_group.
  rewrite Hsrc, Hdest, Hsig, Hsev, Huser, !String.eqb_refl. reflexivity.
Qed.

Lemma same_group_refl (r : Row) : same_group r r = true.
Proof. unfold same_group. rewrite !String.eqb_refl. reflexivity. Qed.

Lemma filter_length_perm {A} (f : A -> bool) (l l' : list A) :
  Permutation l l' -> List.length (filter f l) = List.length (filter f l').
Proof.
  induction 1 as [ | x l l' _ IH | x y l | l l' l'' _ IH1 _ IH2 ]; simpl.
  - reflexivity.
  - destruct (f x); simpl; congruence.
  - destruct (f x), (f y); reflexivity.
  - congruence.
Qed.

Lemma filter_all {A} (f : A -> bool) (l : list A) :
  (forall x, In x l -> f x = true) -> filter f l = l.
Proof.
  induction l as [ | a l IH ]; simpl; intros H; [ reflexivity | ].
  rewrite (H a) by auto. f_equal. apply IH. auto.
Qed.

Lemma filter_hit {A} (f : A -> bool) (l : list A) (x : A) :
  In x l -> f x = true -> (1 <= List.length (filter f l))%nat.
Proof.
  intros Hin Hf.
  assert (Hx : In x (filter f l)) by (apply filter_In; auto).
  destruct (filter f l); [ contradiction | simpl; lia ].
Qed.

Lemma Forall2_in_left {A B} (R : A -> B -> Prop) (l : list A) (l' : list B) :
  Forall2 R l l' -> forall a, In a l -> exists b, In b l' /\ R a b.
Proof.
  induction 1 as [ | x y l l' Hxy _ IH ]; intros a Hin; [ contradiction | ].
  destruct Hin as [ <- | Hin ].
  - exists y. split; [ left; reflexivity | exact Hxy ].
  - destruct (IH a Hin) as (b & Hb & Hab). exists b. split; [ right | ]; auto.
Qed.

Lemma closed_duplicates_perm (df df' : DataFrame) :
  Permutation df df' ->
  List.length (closed_duplicates df) = List.length (closed_duplicates df').
Proof.
  intros Hperm. unfold closed_duplicates.
  rewrite (filter_ext
             (fun r => String.eqb (status_label r) CLOSED_WITHOUT
                       && (2 <=? group_size r df)%nat)
             (fun r => String.eqb (status_label r) CLOSED_WITHOUT
                       && (2 <=? group_size r df')%nat)).
  - apply filter_length_perm. exact Hperm.
  - intros r. unfold group_size.
    rewrite (filter_length_perm (same_group r) df df' Hperm). reflexivity.
Qed.

(** Every injected row is a closed duplicate of the table it ends up in. *)
Lemma injected_closed_duplicates (base srcs dupes : list Row) (df : DataFrame) :
  injected base srcs dupes df ->
  (List.length dupes <= List.length (closed_duplicates df))%nat.
Proof.
  intros ((rest & Hsub) & Hcopy & Hperm).
  rewrite (closed_duplicates_perm _ _ Hperm).
  unfold closed_duplicates. rewrite filter_app, length_app.
  rewrite (filter_all _ dupes); [ lia | ].
  intros d Hd.
  destruct (Forall2_in_left _ _ _ Hcopy d Hd) as (s & Hs & Hds & Hst).
  rewrite Hst. change (String.eqb CLOSED_WITHOUT CLOSED_WITHOUT) with true.
  cbn [andb]. apply Nat.leb_le.
  unfold group_size. rewrite filter_app, length_app.
  assert (In s base).
  { eapply Permutation_in; [ symmetry; exact Hsub | ].
    apply in_or_app. left. exact Hs. }
  pose proof (filter_hit (same_group d) base s H (same_but_status_group d s Hds)).
  pose proof (filter_hit (same_group d) dupes d Hd (same_group_refl d)).
  lia.
Qed.

Lemma base_layout_well_formed P per_day extra_rows base :
  base_layout P per_day extra_rows base -> Forall well_formed base.
Proof.
  intros (blocks & extra & -> & Hblocks & _ & Hextra).
  apply Forall_app. split.
  - apply Forall_concat.
    induction Hblocks as [ | offset block offsets blocks [_ Hb] _ IH ];
      constructor; [ | exact IH ].
    eapply Forall_impl; [ | exact Hb ]. intros r [Hr _]. exact Hr.
  - eapply Forall_impl; [ | exact Hextra ]. intros r [Hr _]. exact Hr.
Qed.

Lemma injected_well_formed (base srcs dupes : list Row) (df : DataFrame) :
  Forall well_formed base -> injected base srcs dupes df ->
  Forall well_formed df.
Proof.
  intros Hbase ((rest & Hsub) & Hcopy & Hperm).
  rewrite Hperm. apply Forall_app. split; [ exact Hbase | ].
  apply Forall_forall. intros d Hd.
  destruct (Forall2_in_left _ _ _ Hcopy d Hd) as (s & Hs & Hds & Hst).
  assert (Hwf : well_formed s).
  { rewrite Forall_forall in Hbase. apply Hbase.
    eapply Permutation_in; [ symmetry; exact Hsub | ].
    apply in_or_app. left. exact Hs. }
  destruct Hds as (_ & Hsrc & Hdest & _ & _ & _ & Hsev & _).
  destruct Hwf as (W1 & W2 & W3 & W4).
  unfold well_formed. rewrite Hsrc, Hdest, Hsev, Hst.
  repeat split; try assumption. left. reflexivity.
Qed.

(** Number of rows of the returned table. *)
Lemma output_size (rows : Z) (w : World) :
  0 <= rows < 2 ^ 48 ->
  exists base df,
    fst (base_records rows w) = Ok base /\
    fst (generate_notables rows w) = Ok df /\
    Z.of_nat (List.length base) = Z.max rows 90 /\
    Z.of_nat (List.length df) = Z.max rows 90 + rows / 20.
Proof.
  intros Hrows.
  destruct (generate_notables_total rows w Hrows)
    as (df & base & srcs & dupes & E & Eb & Hbase & Hlen & Hinj).
  exists base, df. split; [ exact Eb | ]. split; [ exact E | ].
  pose proof (base_layout_length _ _ _ _ Hbase) as Hb.
  pose proof (base_size rows ltac:(lia)) as Hsize.
  destruct Hinj as (_ & Hcopy & Hperm).
  apply Permutation_length in Hperm. rewrite length_app in Hperm.
  apply Forall2_length in Hcopy.
  assert (0 <= rows / 20) by (apply Z.div_pos; lia).
  lia.
Qed.

End GeneratorCounting.

(* ================================================================= *)
(** ** Specified properties of the generator *)

Section GeneratorTheorems.

Import Generator.

(** C2 -- For every requested row count N from 0 up (and below 2^48,
    where the double product [N * 0.05] truncates to N div 20) the
    generator returns a table, it injects N div 20 rows, and the table
    holds at least N div 20 rows whose status is "closed without
    escalation" and which agree on src, dest, user, signature and
    severity with a row at another position of the table. *)
Theorem injected_duplicates_present (rows : Z) (w : World) :
  0 <= rows < 2 ^ 48 ->
  exists df,
    fst (generate_notables rows w) = Ok df /\
    dupe_count_of rows = Ok (rows / 20) /\
    rows / 20 <= Z.of_nat (List.length (closed_duplicates df)).
Proof.
  intros Hrows.
  destruct (generate_notables_total rows w Hrows)
    as (df & base & srcs & dupes & E & _ & _ & Hlen & Hinj).
  exists df. split; [ exact E | ].
  split; [ apply dupe_count_of_exact; exact Hrows | ].
  pose proof (injected_closed_duplicates _ _ _ _ Hinj) as Hdup.
  destruct Hinj as (_ & Hcopy & _). apply Forall2_length in Hcopy.
  assert (0 <= rows / 20) by (apply Z.div_pos; lia).
  lia.
Qed.

Lemma injected_duplicates_present_witness :
  0 <= 100 < 2 ^ 48 /\
  exists df,
    fst (generate_notables 100 sample_world) = Ok df /\
    dupe_count_of 100 = Ok (100 / 20) /\
    100 / 20 <= Z.of_nat (List.length (closed_duplicates df)).
Proof.
  assert (H : 0 <= 100 < 2 ^ 48) by (split; [ discriminate | reflexivity ]).
  split; [ exact H | ].
  exact (injected_duplicates_present 100 sample_world H).
Defined.

(** C3, as the code has it -- For every requested row count N with
    90 <= N (and N < 2^48) the base set has exactly N rows: one block of
    N div 90 rows for each day offset 0..89, every row of the block
    stamped that many days before a clock reading, followed by N mod 90
    rows each stamped on a day offset drawn from 0..89; and the returned
    table has exactly N + N div 20 rows. *)
Theorem base_set_layout (rows : Z) (w : World) :
  90 <= rows < 2 ^ 48 ->
  exists base df,
    fst (base_records rows w) = Ok base /\
    fst (generate_notables rows w) = Ok df /\
    Z.of_nat (List.length base) = rows /\
    base_layout (readings w) (Z.to_nat (rows / 90)) (Z.to_nat (rows mod 90)) base /\
    Z.of_nat (List.length df) = rows + rows / 20.
Proof.
  intros Hrows.
  destruct (generate_notables_total rows w ltac:(lia))
    as (df & base & srcs & dupes & E & Eb & Hbase & Hlen & Hinj).
  destruct (output_size rows w ltac:(lia)) as (base' & df' & Eb' & E' & Hb & Hd).
  replace base' with base in * by congruence.
  replace df' with df in * by congruence.
  exists base, df.
  assert (Hper : per_day_of rows = rows / 90).
  { unfold per_day_of.
    assert (1 <= rows / 90) by (apply Z.div_le_lower_bound; lia).
    destruct (Z.eqb_spec (rows / 90) 0); [ lia | reflexivity ]. }
  assert (Hrem : remainder_of rows = rows mod 90).
  { unfold remainder_of. rewrite Hper.
    pose proof (Z.div_mod rows 90 ltac:(lia)). lia. }
  rewrite Hper, Hrem in Hbase.
  split; [ exact Eb | ]. split; [ exact E | ].
  split; [ lia | ]. split; [ exact Hbase | lia ].
Qed.

Lemma base_set_layout_witness :
  90 <= 100 < 2 ^ 48 /\
  exists base df,
    fst (base_records 100 sample_world) = Ok base /\
    fst (generate_notables 100 sample_world) = Ok df /\
    Z.of_nat (List.length base) = 100 /\
    base_layout (readings sample_world)
                (Z.to_nat (100 / 90)) (Z.to_nat (100 mod 90)) base /\
    Z.of_nat (List.length df) = 100 + 100 / 20.
Proof.
  assert (H : 90 <= 100 < 2 ^ 48) by (split; [ discriminate | reflexivity ]).
  split; [ exact H | ].
  exact (base_set_layout 100 sample_world H).
Defined.

(** C3, as the specification words it, fails below 90: asked for one
    row, the generator builds a base set of 90 rows and returns 90
    rows, not 1 + 0. *)
Lemma base_set_small_request :
  exists base df,
    fst (base_records 1 sample_world) = Ok base /\
    fst (generate_notables 1 sample_world) = Ok df /\
    List.length base = 90%nat /\
    List.length df = 90%nat /\
    Z.of_nat (List.length base) <> 1 /\
    Z.of_nat (List.length df) <> 1 + 1 / 20.
Proof.
  destruct (output_size 1 sample_world) as (base & df & Eb & E & Hb & Hd).
  { split; [ discriminate | reflexivity ]. }
  exists base, df.
  change (Z.max 1 90) with 90 in *. change (1 / 20) with 0 in *.
  split; [ exact Eb | ]. split; [ exact E | ].
  split; [ lia | ]. split; [ lia | ]. split; lia.
Qed.

(** C6 -- Every row of a table the generator returns has its severity
    among low, medium, high, critical, its status among the two labels,
    its source address the dotted quad of an address of 10.0.0.0/16
    other than the first and the last, and its destination address the
    dotted quad of an address of 192.168.0.0/16 other than the first and
    the last. *)
Theorem generated_rows_well_formed (rows : Z) (w : World) (df : DataFrame) :
  fst (generate_notables rows w) = Ok df -> Forall well_formed df.
Proof.
  intros Hdf.
  destruct (generate_notables_returned rows w df Hdf)
    as (base & srcs & dupes & dc & _ & Hbase & _ & _ & _ & Hinj).
  eapply injected_well_formed; [ | exact Hinj ].
  eapply base_layout_well_formed. exact Hbase.
Qed.

Lemma generated_rows_well_formed_witness :
  fst (generate_notables 100 sample_world) = Ok table_100 /\
  Forall well_formed table_100.
Proof.
  assert (H : fst (generate_notables 100 sample_world) = Ok table_100)
    by (vm_compute; reflexivity).
  split; [ exact H | ].
  exact (generated_rows_well_formed 100 sample_world table_100 H).
Defined.

(** C10 -- A returned table is, up to order, the base set followed by
    the injected rows; every injected row has a source row of its own
    in the base set and equals it in every column other than
    status_label (timestamp, category and file_name included), its
    status_label is "closed without escalation", and when the source was
    "closed with escalation" the two differ in status_label, hence in
    that field only.  The injected rows are as many as
    [int(rows * 0.05)]. *)
Theorem duplicates_copy_their_source (rows : Z) (w : World) (df : DataFrame) :
  fst (generate_notables rows w) = Ok df ->
  exists base srcs dupes,
    fst (base_records rows w) = Ok base /\
    Permutation df (base ++ dupes) /\
    (exists rest, Permutation base (srcs ++ rest)) /\
    dupe_count_of rows = Ok (Z.of_nat (List.length dupes)) /\
    Forall2 (fun d s =>
               same_but_status d s /\
               status_label d = CLOSED_WITHOUT /\
               (status_label s = CLOSED_WITH ->
                status_label d <> status_label s))
            dupes srcs.
Proof.
  intros Hdf.
  destruct (generate_notables_returned rows w df Hdf)
    as (base & srcs & dupes & dc & Eb & _ & Hdc & Hnn & Hlen & Hinj).
  destruct Hinj as (Hsub & Hcopy & Hperm).
  exists base, srcs, dupes.
  split; [ exact Eb | ]. split; [ exact Hperm | ]. split; [ exact Hsub | ].
  split.
  - rewrite Hdc. f_equal. apply Forall2_length in Hcopy. lia.
  - eapply Forall2_impl; [ | exact Hcopy ].
    intros d s (Hsame & Hst).
    split; [ exact Hsame | ]. split; [ exact Hst | ].
    intros Hs. rewrite Hst, Hs. discriminate.
Qed.

Lemma duplicates_copy_their_source_witness :
  fst (generate_notables 100 sample_world) = Ok table_100 /\
  exists base srcs dupes,
    fst (base_records 100 sample_world) = Ok base /\
    Permutation table_100 (base ++ dupes) /\
    (exists rest, Permutation base (srcs ++ rest)) /\
    dupe_count_of 100 = Ok (Z.of_nat (List.length dupes)) /\
    Forall2 (fun d s =>
               same_but_status d s /\
               status_label d = CLOSED_WITHOUT /\
               (status_label s = CLOSED_WITH ->
                status_label d <> status_label s))
            dupes srcs.
Proof.
  assert (H : fst (generate_notables 100 sample_world) = Ok table_100)
    by (vm_compute; reflexivity).
  split; [ exact H | ].
  exact (duplicates_copy_their_source 100 sample_world table_100 H).
Defined.

End GeneratorTheorems.

(* ================================================================= *)
(** ** The generator's [main] *)

Section GeneratorMain.

Import Generator.

Lemma fst_run {A} (m : G A) (w : World) (a : A) :
  fst (m w) = Ok a -> exists w', m w = (Ok a, w').
Proof. destruct (m w) as [r w']. simpl. intros ->. exists w'. reflexivity. Qed.

Lemma requested_read (argv : list string) (rows : Z) (w : World) :
  requested argv rows ->
  match nth_error argv 1 with
  | Some a => lift (Py.int a)
  | None => ret ROWS_DEFAULT
  end w = (Ok rows, w).
Proof.
  unfold requested. destruct (nth_error argv 1) as [ a | ]; intros H.
  - unfold lift. rewrite H. reflexivity.
  - subst rows. reflexivity.
Qed.

(** Once the table is generated, [main] ends in one of four ways,
    according to what the operating system does with the write and the
    console with the line. *)
Lemma main_outcome (argv : list string) (rows : Z) (w : World)
      (df : DataFrame) :
  requested argv rows ->
  fst (generate_notables rows w) = Ok df ->
  let out := out_path argv in
  let line := wrote_line (List.length df) out in
  match disk_says w out df with
  | Accepted =>
      match console_says w line with
      | None =>
          fst (main argv w) = Ok tt /\
          files (snd (main argv w)) = files w ++ [(out, Whole df)] /\
          stdout (snd (main argv w)) = stdout w ++ [line]
      | Some e =>
          fst (main argv w) = Raise e /\
          files (snd (main argv w)) = files w ++ [(out, Whole df)] /\
          stdout (snd (main argv w)) = stdout w
      end
  | Refused e =>
      fst (main argv w) = Raise e /\
      files (snd (main argv w)) = files w /\
      stdout (snd (main argv w)) = stdout w
  | Broken e =>
      fst (main argv w) = Raise e /\
      files (snd (main argv w)) = files w ++ [(out, Torn)] /\
      stdout (snd (main argv w)) = stdout w
  end.
Proof.
  intros Hreq E out line.
  destruct (fst_run _ _ _ E) as (w1 & E1).
  destruct (quiet_generate_notables rows w) as (Hf & Hs & Hd & Hc).
  rewrite E1 in Hf, Hs, Hd, Hc. cbn [snd] in Hf, Hs, Hd, Hc.
  assert (Em : main argv w = (to_csv out df ;; print line) w1).
  { unfold main.
    rewrite (bind_ok _ _ _ _ _ (requested_read argv rows w Hreq)).
    rewrite (bind_ok _ _ _ _ _ E1). reflexivity. }
  rewrite Em. unfold bind, to_csv. rewrite Hd.
  destruct (disk_says w out df) as [ | e | e ].
  - unfold print. cbn [console_says]. rewrite Hc.
    destruct (console_says w line) as [ e | ];
      cbn [fst snd files stdout]; rewrite Hf, Hs; auto.
  - cbn [fst snd]. auto.
  - cbn [fst snd files stdout]. rewrite Hf, Hs. auto.
Qed.

(** C7 -- Invoked with a row count that reads as 0 the generator
    generates its table without raising; the table is the smallest one
    it generates for any row count from 0 up: 90 rows, one per day of
    the window.  When the operating system takes the write and the
    console the line, [main] returns normally, having written that
    table to the path ([Path] of the second argument, or notables.csv)
    and printed its line. *)
Theorem zero_rows_run (a : string) (argv : list string) (w : World) :
  nth_error argv 1 = Some a -> Py.int a = Ok 0 ->
  let out := out_path argv in
  exists df,
    fst (generate_notables 0 w) = Ok df /\
    List.length df = 90%nat /\
    (forall rows w0 df0,
       0 <= rows < 2 ^ 48 ->
       fst (generate_notables rows w0) = Ok df0 ->
       (List.length df <= List.length df0)%nat) /\
    (disk_says w out df = Accepted ->
     console_says w ("[+] Wrote 90 notables → " ++ out)%string = None ->
     exists w',
       main argv w = (Ok tt, w') /\
       files w' = files w ++ [(out, Whole df)] /\
       stdout w' = stdout w ++ [("[+] Wrote 90 notables → " ++ out)%string]).
Proof.
  intros Harg Hzero out.
  destruct (output_size 0 w) as (base & df & _ & E & _ & Hd).
  { split; [ discriminate | reflexivity ]. }
  change (Z.max 0 90 + 0 / 20) with 90 in Hd.
  assert (Hlen : List.length df = 90%nat) by lia.
  exists df.
  split; [ exact E | ]. split; [ exact Hlen | ]. split.
  - intros rows w0 df0 Hrows Hdf0.
    destruct (output_size rows w0 Hrows) as (base' & df' & _ & E' & _ & Hd').
    replace df' with df0 in Hd' by congruence.
    assert (0 <= rows / 20) by (apply Z.div_pos; lia).
    lia.
  - intros Hdisk Hcon.
    assert (Hreq : requested argv 0).
    { unfold requested. rewrite Harg. exact Hzero. }
    pose proof (main_outcome argv 0 w df Hreq E) as H.
    cbv zeta in H. fold out in H. rewrite Hdisk, Hlen in H.
    change (wrote_line 90 out)
      with ("[+] Wrote 90 notables → " ++ out)%string in H.
    rewrite Hcon in H. destruct H as (H1 & H2 & H3).
    exists (snd (main argv w)).
    split; [ | split; [ exact H2 | exact H3 ] ].
    destruct (main argv w) as [r w']. cbn in H1 |- *. rewrite H1.
    reflexivity.
Qed.

Lemma zero_rows_run_witness :
  exists df,
    fst (generate_notables 0 sample_world) = Ok df /\
    List.length df = 90%nat /\
    (forall rows w0 df0,
       0 <= rows < 2 ^ 48 ->
       fst (generate_notables rows w0) = Ok df0 ->
       (List.length df <= List.length df0)%nat) /\
    (disk_says sample_world "out.csv" df = Accepted ->
     console_says sample_world "[+] Wrote 90 notables → out.csv" = None ->
     exists w',
       main ["generator"; "0"; "./out.csv"]%string sample_world = (Ok tt, w') /\
       files w' = files sample_world ++ [("out.csv"%string, Whole df)] /\
       stdout w' = stdout sample_world
                   ++ ["[+] Wrote 90 notables → out.csv"%string]).
Proof.
  exact (zero_rows_run "0" ["generator"; "0"; "./out.csv"]%string sample_world
                       eq_refl eq_refl).
Defined.

End GeneratorMain.

(* ================================================================= *)
(** ** Counting in the summarizer *)

Section SummarizerCounting.

Import Summarizer.

Lemma cell_eqb_eq (a b : Cell) : cell_eqb a b = true <-> a = b.
Proof.
  destruct a as [ | s | n d ], b as [ | t | m e ]; simpl;
    try (split; [ discriminate | congruence ]).
  - tauto.
  - rewrite String.eqb_eq. split; congruence.
  - rewrite andb_true_iff, Z.eqb_eq, Pos.eqb_eq. split.
    + intros [-> ->]. reflexivity.
    + intros E. injection E as -> ->. auto.
Qed.

Lemma key_eqb_eq (a b : Key) : key_eqb a b = true <-> a = b.
Proof.
  destruct a as [[[[a1 a2] a3] a4] a5], b as [[[[b1 b2] b3] b4] b5].
  unfold key_eqb. rewrite !andb_true_iff, !cell_eqb_eq.
  split.
  - intros [[[[-> ->] ->] ->] ->]. reflexivity.
  - intros E. injection E as -> -> -> -> ->. auto.
Qed.

Lemma key_eqb_refl (k : Key) : key_eqb k k = true.
Proof. apply key_eqb_eq. reflexivity. Qed.

Lemma filt_spec (cutoff : Z) (r : Alert) :
  filt cutoff r = true <->
  (exists t, _time r = Some t /\ cutoff <= t) /\
  status_label r = Str CLOSED_WITHOUT.
Proof.
  unfold filt. rewrite andb_true_iff. split.
  - intros [Ht Hs]. split.
    + destruct (_time r) as [ t | ]; [ | discriminate ].
      exists t. split; [ reflexivity | apply Z.leb_le; exact Ht ].
    + destruct (status_label r) as [ | s | n d ]; try discriminate.
      apply String.eqb_eq in Hs. congruence.
  - intros [(t & -> & Ht) ->]. split.
    + apply Z.leb_le. exact Ht.
    + apply String.eqb_refl.
Qed.

(** [bump] adds one to the count of its combination and to no other. *)
Lemma alert_count_bump (k k' : Key) (counts : list (Key * Z)) :
  alert_count k (bump k' counts)
  = alert_count k counts + (if key_eqb k' k then 1 else 0).
Proof.
  induction counts as [ | [k0 c] rest IH ]; simpl.
  - lia.
  - destruct (key_eqb k0 k') eqn:E; simpl.
    + apply key_eqb_eq in E. subst k0. destruct (key_eqb k' k); lia.
    + rewrite IH. lia.
Qed.

Lemma alert_count_fold (k : Key) (focus : list Key) :
  forall counts,
    alert_count k (fold_left (fun counts k' => bump k' counts) focus counts)
    = alert_count k counts
      + Z.of_nat (List.length (filter (fun k' => key_eqb k' k) focus)).
Proof.
  induction focus as [ | k' focus IH ]; intros counts; simpl.
  - lia.
  - rewrite IH, alert_count_bump.
    destruct (key_eqb k' k); simpl List.length; lia.
Qed.

Lemma alert_count_perm (k : Key) (l l' : list (Key * Z)) :
  Permutation l l' -> alert_count k l = alert_count k l'.
Proof.
  induction 1 as [ | [k0 c] l l' _ IH | [k0 c] [k1 c'] l | l l' l'' _ IH1 _ IH2 ];
    simpl; lia.
Qed.

Lemma insert_desc_perm (x : Key * Z) (l : list (Key * Z)) :
  Permutation (insert_desc x l) (x :: l).
Proof.
  induction l as [ | y l IH ]; simpl.
  - reflexivity.
  - destruct (snd y <=? snd x); [ reflexivity | ].
    rewrite IH. apply perm_swap.
Qed.

Lemma sort_values_perm (l : list (Key * Z)) : Permutation (sort_values l) l.
Proof.
  induction l as [ | x l IH ]; simpl.
  - reflexivity.
  - rewrite insert_desc_perm, IH. reflexivity.
Qed.

(** The rows behind one combination of [focus_of] are the contributing
    rows of the file. *)
Lemma focus_of_contributing (k : Key) (cutoff : Z) (df : list Alert) :
  List.length (filter (fun k' => key_eqb k' k) (focus_of cutoff df))
  = List.length (contributing k cutoff df).
Proof.
  unfold focus_of, contributing.
  induction df as [ | r df IH ]; [ reflexivity | ].
  cbn [filter].
  destruct (filt cutoff r); cbn [map filter];
    rewrite ?andb_true_r, ?andb_false_r; try exact IH.
  destruct (key_eqb (group_cols r) k); cbn [List.length]; congruence.
Qed.

(** [dropna] leaves the rows of a complete combination alone and takes
    away all those of any other. *)
Lemma dropna_combination (k : Key) (focus : list Key) :
  filter (fun k' => key_eqb k' k) (dropna focus)
  = if has_na k then [] else filter (fun k' => key_eqb k' k) focus.
Proof.
  unfold dropna.
  induction focus as [ | k' focus IH ]; cbn [filter].
  - destruct (has_na k); reflexivity.
  - destruct (key_eqb k' k) eqn:E.
    + apply key_eqb_eq in E. subst k'.
      destruct (has_na k) eqn:Hk; cbn [negb filter].
      * rewrite IH. reflexivity.
      * rewrite key_eqb_refl, IH. reflexivity.
    + destruct (has_na k'); cbn [negb filter]; [ exact IH | ].
      rewrite E. exact IH.
Qed.

Lemma value_counts_total (k : Key) (cutoff : Z) (df : list Alert) :
  alert_count k (value_counts (focus_of cutoff df))
  = if has_na k then 0
    else Z.of_nat (List.length (contributing k cutoff df)).
Proof.
  unfold value_counts, group_sizes.
  rewrite (alert_count_perm _ _ _ (sort_values_perm _)).
  rewrite alert_count_fold, dropna_combination.
  destruct (has_na k); [ reflexivity | ].
  rewrite focus_of_contributing. simpl. lia.
Qed.

(** No combination has two lines. *)
Lemma bump_keys (k : Key) (counts : list (Key * Z)) :
  forall k', In k' (map fst (bump k counts)) <->
             k' = k \/ In k' (map fst counts).
Proof.
  induction counts as [ | [k0 c] rest IH ]; intros k'; simpl.
  - intuition congruence.
  - destruct (key_eqb k0 k) eqn:E; simpl.
    + apply key_eqb_eq in E. subst k0. intuition congruence.
    + rewrite IH. intuition congruence.
Qed.

Lemma bump_nodup (k : Key) (counts : list (Key * Z)) :
  NoDup (map fst counts) -> NoDup (map fst (bump k counts)).
Proof.
  induction counts as [ | [k0 c] rest IH ]; simpl; intros Hnd.
  - constructor; [ intros [] | constructor ].
  - inversion Hnd as [ | ? ? Hnotin Hrest ]; subst.
    destruct (key_eqb k0 k) eqn:E; simpl.
    + constructor; assumption.
    + constructor; [ | apply IH; assumption ].
      rewrite bump_keys. intros [ -> | Hin ]; [ | contradiction ].
      rewrite key_eqb_refl in E. discriminate.
Qed.

Lemma group_sizes_nodup (focus : list Key) :
  NoDup (map fst (group_sizes focus)).
Proof.
  unfold group_sizes.
  assert (H : forall counts, NoDup (map fst counts) ->
                NoDup (map fst (fold_left (fun counts k => bump k counts)
                                          focus counts))).
  { induction focus as [ | k focus IH ]; intros counts Hnd; simpl.
    - exact Hnd.
    - apply IH. apply bump_nodup. exact Hnd. }
  apply H. constructor.
Qed.

Lemma value_counts_nodup (focus : list Key) :
  NoDup (map fst (value_counts focus)).
Proof.
  unfold value_counts.
  eapply Permutation_NoDup; [ | apply group_sizes_nodup ].
  apply Permutation_map. symmetry. apply sort_values_perm.
Qed.

(** Under distinct combinations a line carries the whole count. *)
Lemma alert_count_line (k : Key) (c : Z) (counts : list (Key * Z)) :
  NoDup (map fst counts) -> In (k, c) counts -> alert_count k counts = c.
Proof.
  induction counts as [ | [k0 c0] rest IH ]; simpl; intros Hnd Hin;
    [ contradiction | ].
  inversion Hnd as [ | ? ? Hnotin Hrest ]; subst.
  assert (Hfresh : forall k1, ~ In k1 (map fst rest) -> alert_count k1 rest = 0).
  { clear. induction rest as [ | [k2 c2] rest IH ]; simpl; intros k1 Hk1;
      [ reflexivity | ].
    destruct (key_eqb k2 k1) eqn:E.
    - apply key_eqb_eq in E. subst. tauto.
    - rewrite IH by tauto. lia. }
  destruct Hin as [ E | Hin ].
  - injection E as -> ->. rewrite key_eqb_refl, Hfresh by assumption. lia.
  - destruct (key_eqb k0 k) eqn:E.
    + apply key_eqb_eq in E. subst k0. exfalso. apply Hnotin.
      change k with (fst (k, c)). apply in_map. exact Hin.
    + rewrite IH by assumption. lia.
Qed.

Lemma summary_of_in (min_cluster : Z) (focus : list Key) (x : Key * Z) :
  In x (summary_of min_cluster focus) <->
  In x (value_counts focus) /\ min_cluster <= snd x.
Proof.
  unfold summary_of, query. split.
  - intros H. apply (Permutation_in _ (sort_values_perm _)) in H.
    apply filter_In in H. rewrite Z.leb_le in H. exact H.
  - intros H. apply (Permutation_in _ (Permutation_sym (sort_values_perm _))).
    apply filter_In. rewrite Z.leb_le. exact H.
Qed.

Lemma group_sizes_keys (focus : list Key) (k : Key) :
  In k (map fst (group_sizes focus)) <-> In k focus.
Proof.
  unfold group_sizes.
  assert (H : forall counts,
             In k (map fst (fold_left (fun counts k' => bump k' counts)
                                      focus counts))
             <-> In k focus \/ In k (map fst counts)).
  { induction focus as [ | k' focus IH ]; intros counts; simpl.
    - tauto.
    - rewrite IH, bump_keys. intuition congruence. }
  rewrite H. simpl. tauto.
Qed.

Lemma filter_key_hit (focus : list Key) (k : Key) :
  In k focus <->
  (1 <= List.length (filter (fun k' => key_eqb k' k) focus))%nat.
Proof.
  split.
  - intros Hin. apply (filter_hit _ focus k Hin). apply key_eqb_refl.
  - intros Hlen.
    destruct (filter (fun k' => key_eqb k' k) focus) as [ | k0 l ] eqn:E;
      [ simpl in Hlen; lia | ].
    assert (Hin : In k0 (filter (fun k' => key_eqb k' k) focus))
      by (rewrite E; left; reflexivity).
    apply filter_In in Hin. destruct Hin as [Hin Hk].
    apply key_eqb_eq in Hk. subst. exact Hin.
Qed.

(** The lines of the sorted group sizes: one for each combination that
    occurs, with its number of occurrences. *)
Lemma group_sizes_lines (focus : list Key) (k : Key) (c : Z) :
  In (k, c) (sort_values (group_sizes focus)) <->
  c = Z.of_nat (List.length (filter (fun k' => key_eqb k' k) focus))
  /\ 1 <= c.
Proof.
  set (table := sort_values (group_sizes focus)).
  assert (Hnd : NoDup (map fst table)).
  { eapply Permutation_NoDup; [ | apply (group_sizes_nodup focus) ].
    apply Permutation_map. symmetry. apply sort_values_perm. }
  assert (Htotal : alert_count k table
                   = Z.of_nat (List.length
                                 (filter (fun k' => key_eqb k' k) focus))).
  { unfold table, group_sizes.
    rewrite (alert_count_perm _ _ _ (sort_values_perm _)).
    rewrite alert_count_fold. simpl. lia. }
  assert (Hkeys : In k (map fst table) <-> In k focus).
  { unfold table. split; intros H.
    - apply group_sizes_keys.
      eapply Permutation_in; [ | exact H ].
      apply Permutation_map. apply sort_values_perm.
    - apply group_sizes_keys in H.
      eapply Permutation_in; [ | exact H ].
      apply Permutation_map. symmetry. apply sort_values_perm. }
  split.
  - intros Hin.
    pose proof (alert_count_line k c _ Hnd Hin) as Hc.
    assert (Hk : In k focus).
    { apply Hkeys. change k with (fst (k, c)). apply in_map. exact Hin. }
    apply filter_key_hit in Hk. split; lia.
  - intros [Hc Hpos].
    assert (Hk : In k focus) by (apply filter_key_hit; lia).
    apply Hkeys in Hk. apply in_map_iff in Hk.
    destruct Hk as ([k0 c0] & Hfst & Hin). cbn in Hfst. subst k0.
    pose proof (alert_count_line k c0 _ Hnd Hin).
    replace c with c0 by lia. exact Hin.
Qed.

(** The lines of [value_counts]: one for each combination without a
    missing cell that occurs, with its number of occurrences. *)
Lemma value_counts_lines (focus : list Key) (k : Key) (c : Z) :
  In (k, c) (value_counts focus) <->
  has_na k = false /\
  c = Z.of_nat (List.length (filter (fun k' => key_eqb k' k) focus))
  /\ 1 <= c.
Proof.
  unfold value_counts. rewrite group_sizes_lines, dropna_combination.
  destruct (has_na k); cbn [List.length].
  - split; [ intros [-> H]; lia | intros [H _]; discriminate ].
  - tauto.
Qed.

Lemma summary_of_lines (min_cluster cutoff : Z) (df : list Alert)
      (k : Key) (c : Z) :
  In (k, c) (summary_of min_cluster (focus_of cutoff df)) <->
  complete k /\
  c = Z.of_nat (List.length (contributing k cutoff df))
  /\ 1 <= c /\ min_cluster <= c.
Proof.
  rewrite summary_of_in, value_counts_lines, focus_of_contributing.
  unfold complete. cbn [snd]. tauto.
Qed.

Lemma summary_of_nodup (min_cluster : Z) (focus : list Key) :
  NoDup (map fst (summary_of min_cluster focus)).
Proof.
  unfold summary_of, query.
  eapply Permutation_NoDup.
  - apply Permutation_map. symmetry. apply sort_values_perm.
  - pose proof (value_counts_nodup focus) as Hnd.
    induction (value_counts focus) as [ | [k c] l IH ]; simpl; [ constructor | ].
    inversion Hnd as [ | ? ? Hnotin Hrest ]; subst.
    cbn [snd]. destruct (min_cluster <=? c); simpl; [ | apply IH; exact Hrest ].
    constructor; [ | apply IH; exact Hrest ].
    intros Hin. apply Hnotin. apply in_map_iff in Hin.
    destruct Hin as (x & Hx & Hin). apply filter_In in Hin.
    apply in_map_iff. exists x. tauto.
Qed.

(** A cutoff that is computed is the current time less the lookback,
    and a [datetime]. *)
Lemma cutoff_of_ok (today lookback cutoff : Z) :
  cutoff_of today lookback = Ok cutoff ->
  cutoff = today - timedelta_days lookback /\
  Z.abs lookback <= 999999999 /\ 0 <= cutoff <= DATETIME_MAX.
Proof.
  unfold cutoff_of, timedelta, datetime_sub.
  destruct (Z.leb_spec (Z.abs lookback) 999999999) as [ Hl | ];
    [ | discriminate ].
  destruct (Z.leb_spec 0 (today - timedelta_days lookback)) as [ H0 | ];
    [ | discriminate ].
  destruct (Z.leb_spec (today - timedelta_days lookback) DATETIME_MAX)
    as [ H1 | ]; [ | discriminate ].
  cbn [andb]. intros E. injection E as <-. lia.
Qed.

(** Two cutoffs with no row between them keep the same rows. *)
Lemma focus_of_same_window (c1 c2 : Z) (df : list Alert) :
  (forall r t, In r df -> _time r = Some t -> (c1 <= t <-> c2 <= t)) ->
  focus_of c1 df = focus_of c2 df.
Proof.
  intros H. unfold focus_of. f_equal. apply filter_ext_in.
  intros r Hr. unfold filt.
  destruct (_time r) as [ t | ] eqn:Et; [ | reflexivity ].
  f_equal. specialize (H r t Hr Et).
  destruct (Z.leb_spec c1 t), (Z.leb_spec c2 t); try reflexivity; lia.
Qed.

Lemma filter_length_mono {A} (f g : A -> bool) (l : list A) :
  (forall x, f x = true -> g x = true) ->
  (List.length (filter f l) <= List.length (filter g l))%nat.
Proof.
  intros Hfg. induction l as [ | a l IH ]; simpl; [ lia | ].
  destruct (f a) eqn:E.
  - rewrite (Hfg a E). simpl. lia.
  - destruct (g a); simpl; lia.
Qed.

Lemma summary_of_length (m1 m2 : Z) (focus : list Key) :
  m1 <= m2 ->
  (List.length (summary_of m2 focus) <= List.length (summary_of m1 focus))%nat.
Proof.
  intros Hm. unfold summary_of, query.
  rewrite !(Permutation_length (sort_values_perm _)).
  apply filter_length_mono. intros x. rewrite !Z.leb_le. lia.
Qed.

End SummarizerCounting.

(* ================================================================= *)
(** ** One run of the summarizer *)

Section SummarizerRun.

Import Summarizer.

Ltac parse_cases argv :=
  unfold parse_cli, bind, set_CSV_IN, set_LOOKBACK_DAYS, set_MIN_CLUSTER,
    modify, lift, ret;
  destruct (nth_error argv 1) as [ a1 | ];
  destruct (nth_error argv 2) as [ a2 | ];
  try destruct (Py.int a2) as [ v2 | e2 ];
  destruct (nth_error argv 3) as [ a3 | ];
  try destruct (Py.int a3) as [ v3 | e3 ];
  cbn.

(** [parse_cli] writes the three globals and nothing else. *)
Lemma parse_cli_frame (argv : list string) (w : World) :
  let w' := snd (parse_cli argv w) in
  fs w' = fs w /\ opened w' = opened w /\
  clock w' = clock w /\ stdout w' = stdout w.
Proof. parse_cases argv; auto. Qed.

(** What [parse_cli] returns and writes depends on the globals only. *)
Lemma parse_cli_globals (argv : list string) (w1 w2 : World) :
  CSV_IN w1 = CSV_IN w2 -> LOOKBACK_DAYS w1 = LOOKBACK_DAYS w2 ->
  MIN_CLUSTER w1 = MIN_CLUSTER w2 ->
  let r1 := parse_cli argv w1 in
  let r2 := parse_cli argv w2 in
  fst r1 = fst r2 /\ CSV_IN (snd r1) = CSV_IN (snd r2) /\
  LOOKBACK_DAYS (snd r1) = LOOKBACK_DAYS (snd r2) /\
  MIN_CLUSTER (snd r1) = MIN_CLUSTER (snd r2).
Proof. intros H1 H2 H3. parse_cases argv; auto. Qed.

Lemma int_cases (s : string) :
  (exists z, Py.int s = Ok z) \/ Py.int s = Raise ValueError.
Proof.
  unfold Py.int.
  destruct (match strip (list_ascii_of_string s) with
            | [] => int_digits 0 false []
            | c :: ds => _
            end); eauto.
Qed.

(** A run is the parse, the read, the cutoff, the mask and then
    [console]. *)
Lemma run_console (argv : list string)
      (disk : string -> option (Res Frame)) (clk : nat -> Z) :
  run argv disk clk =
  match parse_cli argv (boot disk clk) with
  | (Raise e, _) => (exit_status (Raise e : Res unit), [])
  | (Ok _, g) =>
      match disk (CSV_IN g) with
      | None => (1, [])
      | Some (Raise e) => (exit_status (Raise e : Res unit), [])
      | Some (Ok df) =>
          match cutoff_of (clk 0%nat) (LOOKBACK_DAYS g) with
          | Raise e => (exit_status (Raise e : Res unit), [])
          | Ok cutoff =>
              match mask_error df cutoff with
              | Some e => (exit_status (Raise e : Res unit), [])
              | None => console cutoff (MIN_CLUSTER g) (rows df)
              end
          end
      end
  end.
Proof.
  unfold run, main.
  pose proof (parse_cli_frame argv (boot disk clk)) as Hframe.
  unfold bind at 1.
  destruct (parse_cli argv (boot disk clk)) as [[[] | e] g].
  - cbn in Hframe. destruct Hframe as (Hfs & Hop & Hclk & Hout).
    unfold bind at 1. unfold get.
    unfold bind at 1. unfold read_csv. rewrite Hfs.
    destruct (disk (CSV_IN g)) as [ [ df | e ] | ];
      [ | cbn; rewrite Hout; reflexivity | cbn; rewrite Hout; reflexivity ].
    unfold bind at 1. unfold datetime_today. rewrite Hclk.
    unfold bind at 1. unfold lift at 1.
    cbn [clock LOOKBACK_DAYS MIN_CLUSTER].
    destruct (cutoff_of (clk 0%nat) (LOOKBACK_DAYS g)) as [ cutoff | e ];
      [ | cbn; rewrite Hout; reflexivity ].
    unfold bind at 1. unfold lift at 1, loc.
    destruct (mask_error df cutoff) as [ e | ];
      [ cbn; rewrite Hout; reflexivity | ].
    unfold console. cbn [MIN_CLUSTER].
    destruct (is_empty (focus_of _ (rows df))).
    + cbn. rewrite Hout. reflexivity.
    + destruct (is_empty (summary_of _ _)); cbn; rewrite Hout; reflexivity.
  - cbn in Hframe. destruct Hframe as (_ & _ & _ & Hout).
    rewrite Hout. reflexivity.
Qed.

(** A run that gets as far as the table is [console]. *)
Lemma run_reaches (argv : list string)
      (disk : string -> option (Res Frame)) (clk : nat -> Z)
      (g : World) (df : Frame) (cutoff : Z) :
  reaches_table argv disk clk g df cutoff ->
  run argv disk clk = console cutoff (MIN_CLUSTER g) (rows df).
Proof.
  intros (Hp & Hd & Hc & Hm).
  rewrite run_console, Hp, Hd, Hc, Hm. reflexivity.
Qed.

(** The clusters [console] reports. *)
Lemma reported_console (cutoff min_cluster : Z) (df : list Alert) :
  reported (snd (console cutoff min_cluster df))
  = summary_of min_cluster (focus_of cutoff df).
Proof.
  unfold console.
  destruct (focus_of cutoff df) as [ | k focus ] eqn:E; [ reflexivity | ].
  cbn [is_empty].
  destruct (summary_of min_cluster (k :: focus)) eqn:E'; cbn.
  - reflexivity.
  - rewrite app_nil_r. reflexivity.
Qed.

End SummarizerRun.

(* ================================================================= *)
(** ** Specified properties of the summarizer, and of both jobs *)

Section SummarizerTheorems.

Import Summarizer.

(** C1, as the code has it -- In a run that gets as far as the table,
    with cutoff = current time - lookback days: a row passes the mask
    exactly when its timestamp is at or after the cutoff (the bound
    included) and its status is exactly "closed without escalation";
    [value_counts] gives a combination with no missing cell the number
    of rows of the file that have it and pass, and gives a combination
    with a missing cell nothing; the run prints a combination exactly
    when it has no missing cell and that number is at least 1 and at
    least the minimum cluster size, and prints that number with it,
    once; and nothing bounds the timestamp from above: a row with the
    status that is stamped after a passing row passes too, and so does,
    under a lookback of 0 days or more, every row stamped after the
    current time. *)
Theorem window_and_status_filter
        (argv : list string) (disk : string -> option (Res Frame))
        (clk : nat -> Z) (g : World) (df : Frame) (cutoff : Z) :
  reaches_table argv disk clk g df cutoff ->
  let lines := reported (snd (run argv disk clk)) in
  cutoff = clk 0%nat - timedelta_days (LOOKBACK_DAYS g) /\
  (forall r, filt cutoff r = true <->
             (exists t, _time r = Some t /\ cutoff <= t) /\
             status_label r = Str CLOSED_WITHOUT) /\
  (forall k, alert_count k (value_counts (focus_of cutoff (rows df)))
             = if has_na k then 0
               else Z.of_nat (List.length (contributing k cutoff (rows df)))) /\
  (forall k c, In (k, c) lines <->
               complete k /\
               c = Z.of_nat (List.length (contributing k cutoff (rows df))) /\
               1 <= c /\ MIN_CLUSTER g <= c) /\
  NoDup (map fst lines) /\
  (forall r r' t t',
     filt cutoff r = true -> _time r = Some t -> _time r' = Some t' ->
     t <= t' -> status_label r' = Str CLOSED_WITHOUT ->
     filt cutoff r' = true) /\
  (forall r t,
     0 <= LOOKBACK_DAYS g -> _time r = Some t -> clk 0%nat <= t ->
     status_label r = Str CLOSED_WITHOUT -> filt cutoff r = true).
Proof.
  intros Hreach lines. unfold lines.
  rewrite (run_reaches _ _ _ _ _ _ Hreach), reported_console.
  destruct Hreach as (_ & _ & Hcut & _).
  apply cutoff_of_ok in Hcut. destruct Hcut as (Hcut & _).
  split; [ exact Hcut | ].
  split; [ intros r; apply filt_spec | ].
  split; [ intros k; apply value_counts_total | ].
  split; [ intros k c; apply summary_of_lines | ].
  split; [ apply summary_of_nodup | ].
  split.
  - intros r r' t t' Hr Ht Ht' Hle Hst.
    apply filt_spec in Hr. destruct Hr as [(t0 & Et0 & Hc) _].
    apply filt_spec. split; [ | exact Hst ].
    exists t'. split; [ exact Ht' | ]. replace t0 with t in Hc by congruence.
    lia.
  - intros r t Hlb Ht Hfuture Hst. apply filt_spec. split; [ | exact Hst ].
    exists t. split; [ exact Ht | ]. rewrite Hcut. unfold timedelta_days. lia.
Qed.

Lemma window_and_status_filter_witness :
  let argv := ["data_viz.py"; "notables.csv"; "30"; "2"]%string in
  let clk := fun _ : nat => sample_now in
  let g := mkWorld "notables.csv" 30 2 sample_disk [] clk [] in
  let cutoff := sample_now - timedelta_days 30 in
  let lines := reported (snd (run argv sample_disk clk)) in
  reaches_table argv sample_disk clk g (plain sample_file) cutoff /\
  (forall k c, In (k, c) lines <->
               complete k /\
               c = Z.of_nat (List.length (contributing k cutoff sample_file)) /\
               1 <= c /\ 2 <= c) /\
  NoDup (map fst lines).
Proof.
  intros argv clk g cutoff lines.
  assert (Hreach : reaches_table argv sample_disk clk g (plain sample_file)
                                 cutoff).
  { split; [ reflexivity | ]. split; [ reflexivity | ].
    split; reflexivity. }
  split; [ exact Hreach | ].
  pose proof (window_and_status_filter argv sample_disk clk g
                (plain sample_file) cutoff Hreach) as H.
  cbv zeta in H. destruct H as (_ & _ & _ & Hlines & Hnd & _).
  split; [ exact Hlines | exact Hnd ].
Defined.

(** C1, as the specification words it, fails on rows with a missing
    grouping cell: both rows of [gap_file] are inside the window and
    closed without escalation, yet [value_counts] leaves them out, no
    combination gets a count, and the run with minimum cluster size 1
    finds no cluster. *)
Lemma missing_cell_rows_are_not_counted :
  let argv := ["data_viz.py"; "notables.csv"; "30"; "1"]%string in
  let clk := fun _ : nat => sample_now in
  let g := mkWorld "notables.csv" 30 1 gap_disk [] clk [] in
  let cutoff := sample_now - timedelta_days 30 in
  reaches_table argv gap_disk clk g (plain gap_file) cutoff /\
  Forall (fun r => filt cutoff r = true /\
                   alert_count (group_cols r)
                               (value_counts (focus_of cutoff gap_file)) = 0)
         gap_file /\
  value_counts (focus_of cutoff gap_file) = [] /\
  run argv gap_disk clk = (0, [Text (msg_no_clusters 1)]).
Proof.
  intros argv clk g cutoff.
  split.
  { split; [ reflexivity | ]. split; [ reflexivity | ].
    split; reflexivity. }
  split.
  { repeat constructor. }
  split; [ reflexivity | ].
  vm_compute. reflexivity.
Qed.

(** C4 -- For one file, one lookback argument and one clock reading, a
    run with the larger minimum cluster size reports no more clusters
    than a run with the smaller one, and every cluster it reports is
    reported by the other. *)
Theorem threshold_monotone
        (prog path lookback s1 s2 : string) (m1 m2 : Z)
        (disk : string -> option (Res Frame)) (clk : nat -> Z) :
  Py.int s1 = Ok m1 -> Py.int s2 = Ok m2 -> m1 <= m2 ->
  let out1 := reported (snd (run [prog; path; lookback; s1] disk clk)) in
  let out2 := reported (snd (run [prog; path; lookback; s2] disk clk)) in
  (List.length out2 <= List.length out1)%nat /\ incl out2 out1.
Proof.
  intros H1 H2 Hm out1 out2. unfold out1, out2. clear out1 out2.
  rewrite !run_console.
  unfold parse_cli, bind, set_CSV_IN, set_LOOKBACK_DAYS, set_MIN_CLUSTER,
    modify, lift, ret.
  cbn [nth_error]. rewrite H1, H2.
  destruct (Py.int lookback) as [ days | e ]; cbn.
  - destruct (disk path) as [ [ df | e ] | ];
      [ | split; [ lia | intros x [] ] | split; [ lia | intros x [] ] ].
    destruct (cutoff_of (clk 0%nat) days) as [ cutoff | e ];
      [ | split; [ cbn; lia | intros x [] ] ].
    destruct (mask_error df cutoff) as [ e | ];
      [ split; [ cbn; lia | intros x [] ] | ].
    rewrite !reported_console. split.
    + apply summary_of_length. exact Hm.
    + intros x Hx. apply summary_of_in in Hx. apply summary_of_in.
      split; [ tauto | lia ].
  - split; [ lia | intros x [] ].
Qed.

Lemma threshold_monotone_witness :
  let clk := fun _ : nat => sample_now in
  Py.int "1" = Ok 1 /\ Py.int "2" = Ok 2 /\ 1 <= 2 /\
  let out1 := reported (snd (run ["data_viz.py"; "notables.csv"; "30"; "1"]%string
                                 sample_disk clk)) in
  let out2 := reported (snd (run ["data_viz.py"; "notables.csv"; "30"; "2"]%string
                                 sample_disk clk)) in
  (List.length out2 <= List.length out1)%nat /\ incl out2 out1.
Proof.
  intros clk.
  assert (H1 : Py.int "1" = Ok 1) by reflexivity.
  assert (H2 : Py.int "2" = Ok 2) by reflexivity.
  assert (Hm : 1 <= 2) by discriminate.
  split; [ exact H1 | ]. split; [ exact H2 | ]. split; [ exact Hm | ].
  exact (threshold_monotone "data_viz.py" "notables.csv" "30" "1" "2" 1 2
                            sample_disk clk H1 H2 Hm).
Defined.




(** C8, as the code has it -- Two runs with the same arguments on the
    same disk print the same and exit alike provided that, when the
    file is read, both cutoffs are computed, the mask raises alike at
    both, and no row of the file is stamped between them. *)
Theorem same_window_same_output
        (argv : list string) (disk : string -> option (Res Frame))
        (clk1 clk2 : nat -> Z) :
  (forall g df,
     parse_cli argv (boot disk clk1) = (Ok tt, g) ->
     disk (CSV_IN g) = Some (Ok df) ->
     exists c1 c2,
       cutoff_of (clk1 0%nat) (LOOKBACK_DAYS g) = Ok c1 /\
       cutoff_of (clk2 0%nat) (LOOKBACK_DAYS g) = Ok c2 /\
       mask_error df c1 = mask_error df c2 /\
       forall r t, In r (rows df) -> _time r = Some t ->
                   (c1 <= t <-> c2 <= t)) ->
  run argv disk clk1 = run argv disk clk2.
Proof.
  intros Hwin. rewrite !run_console.
  destruct (parse_cli_globals argv (boot disk clk1) (boot disk clk2)
                              eq_refl eq_refl eq_refl)
    as (Hr & Hcsv & Hdays & Hmin).
  destruct (parse_cli argv (boot disk clk1)) as [r1 g1].
  destruct (parse_cli argv (boot disk clk2)) as [r2 g2].
  cbn [fst snd] in Hr, Hcsv, Hdays, Hmin. subst r2.
  destruct r1 as [ [] | e ]; [ | reflexivity ].
  rewrite <- Hcsv, <- Hdays, <- Hmin.
  destruct (disk (CSV_IN g1)) as [ [ df | e ] | ] eqn:Ed;
    [ | reflexivity | reflexivity ].
  destruct (Hwin g1 df eq_refl Ed) as (c1 & c2 & E1 & E2 & Hmask & Hrows).
  rewrite E1, E2, <- Hmask.
  destruct (mask_error df c1); [ reflexivity | ].
  unfold console. rewrite (focus_of_same_window c1 c2 _ Hrows). reflexivity.
Qed.

Lemma same_window_same_output_witness :
  let argv := ["data_viz.py"; "notables.csv"; "30"; "1"]%string in
  let clk1 := fun _ : nat => sample_now in
  let clk2 := fun _ : nat => sample_now + 3600000000 in
  clk1 0%nat <> clk2 0%nat /\
  run argv sample_disk clk1 = run argv sample_disk clk2.
Proof.
  intros argv clk1 clk2.
  split; [ discriminate | ].
  apply (same_window_same_output argv sample_disk clk1 clk2).
  intros g df Hparse Hfile.
  injection Hparse as <-. injection Hfile as <-.
  exists (sample_now - timedelta_days 30),
         (sample_now + 3600000000 - timedelta_days 30).
  split; [ reflexivity | ]. split; [ reflexivity | ].
  split; [ reflexivity | ].
  intros r t [ <- | [ <- | [ <- | [] ] ] ] Ht; injection Ht as <-;
    split; intros _; discriminate.
Defined.

(** C8, as the specification words it, fails when a row leaves the
    window between the runs: the same file and the same arguments give
    a table at one instant and "no matching alerts" one microsecond
    later. *)
Lemma later_run_differs :
  let argv := ["data_viz.py"; "notables.csv"; "0"; "1"]%string in
  run argv sample_disk (fun _ => sample_now)
  <> run argv sample_disk (fun _ => sample_now + 1).
Proof. vm_compute. discriminate. Qed.

(** C9 -- A string that [int] refuses, given where an integer is
    expected, ends the job with [ValueError] before anything else
    happens: the generator (row count) leaves its world untouched, so
    no draw, no clock reading, no file and no line; the summarizer
    (lookback days, minimum cluster size) has opened no file, read no
    clock and printed nothing. *)
Theorem malformed_integer_fails_fast
        (a : string) (argv : list string)
        (gw : Generator.World) (sw : World) :
  Py.int a = Raise ValueError ->
  (nth_error argv 1 = Some a ->
   Generator.main argv gw = (Raise ValueError, gw)) /\
  (nth_error argv 2 = Some a \/ nth_error argv 3 = Some a ->
   exists sw',
     main argv sw = (Raise ValueError, sw') /\
     opened sw' = opened sw /\ stdout sw' = stdout sw /\
     clock sw' = clock sw /\ fs sw' = fs sw).
Proof.
  intros Hbad. split.
  - intros Harg. unfold Generator.main. rewrite Harg.
    apply bind_raise. unfold lift. rewrite Hbad. reflexivity.
  - intros Harg.
    pose proof (parse_cli_frame argv sw) as Hframe.
    assert (Hraise : fst (parse_cli argv sw) = Raise ValueError).
    { destruct (nth_error argv 2) as [ a2 | ] eqn:E2.
      2:{ exfalso. destruct Harg as [ Harg | Harg ]; [ discriminate | ].
          assert ((3 < List.length argv)%nat)
            by (apply nth_error_Some; congruence).
          apply nth_error_None in E2. lia. }
      unfold parse_cli, bind, set_CSV_IN, set_LOOKBACK_DAYS, set_MIN_CLUSTER,
        modify, lift, ret.
      rewrite E2.
      destruct (int_cases a2) as [ [v2 Hv2] | Hv2 ]; rewrite Hv2.
      - destruct Harg as [ Harg | Harg ]; [ congruence | ].
        rewrite Harg, Hbad.
        destruct (nth_error argv 1); reflexivity.
      - destruct (nth_error argv 1); reflexivity. }
    destruct (parse_cli argv sw) as [r sw'] eqn:E. cbn in Hraise, Hframe.
    subst r. exists sw'. split.
    + unfold main. apply bind_raise. exact E.
    + tauto.
Qed.

Lemma malformed_integer_fails_fast_witness :
  Py.int "many" = Raise ValueError /\
  Generator.main ["generator"; "many"]%string sample_world
  = (Raise ValueError, sample_world) /\
  exists sw',
    main ["data_viz.py"; "notables.csv"; "30"; "many"]%string
         (boot sample_disk (fun _ => sample_now))
    = (Raise ValueError, sw') /\
    opened sw' = [] /\ stdout sw' = [] /\
    clock sw' = (fun _ => sample_now) /\ fs sw' = sample_disk.
Proof.
  assert (Hbad : Py.int "many" = Raise ValueError) by reflexivity.
  split; [ exact Hbad | ]. split.
  - exact (proj1 (malformed_integer_fails_fast
                    "many" ["generator"; "many"]%string sample_world
                    (boot sample_disk (fun _ => sample_now)) Hbad)
                 eq_refl).
  - exact (proj2 (malformed_integer_fails_fast
                    "many" ["data_viz.py"; "notables.csv"; "30"; "many"]%string
                    sample_world
                    (boot sample_disk (fun _ => sample_now)) Hbad)
                 (or_intror eq_refl)).
Defined.

End SummarizerTheorems.

(* ================================================================= *)
(** ** Further properties: the duplicate count and [random_ip] *)

Section DupeCountSigned.

Import Generator.

(** The double product is odd in [rows]. *)
Lemma dupe_count_of_opp (rows : Z) :
  dupe_count_of (- rows)
  = match dupe_count_of rows with
    | Ok d => Ok (- d)
    | Raise e => Raise e
    end.
Proof.
  unfold dupe_count_of, float_of_int.
  rewrite Z.abs_opp, Z.sgn_opp.
  destruct (round53 (Z.abs rows) 0) as [m e].
  destruct ((m =? 0) || (Z.log2 m + e <? 1024)); [ | reflexivity ].
  f_equal. unfold float_mul, PROOF_DUPLICATE_RATIO.
  replace (Z.abs (- Z.sgn rows * m)) with (Z.abs (Z.sgn rows * m))
    by (rewrite Z.mul_opp_l, Z.abs_opp; reflexivity).
  replace (Z.sgn (- Z.sgn rows * m)) with (- Z.sgn (Z.sgn rows * m))
    by (rewrite Z.mul_opp_l, Z.sgn_opp; reflexivity).
  destruct (round53 (Z.abs (Z.sgn rows * m) * Z.abs 7205759403792794)
                    (e + -57)) as [m' e'].
  unfold int_of_float.
  replace (- Z.sgn (Z.sgn rows * m) * Z.sgn 7205759403792794 * m')
    with (- (Z.sgn (Z.sgn rows * m) * Z.sgn 7205759403792794 * m')) by ring.
  destruct (Z.leb_spec 0 e') as [ He | He ].
  - apply Z.mul_opp_l.
  - apply Z.quot_opp_l.
    assert (0 < 2 ^ (- e')) by (apply Z.pow_pos_nonneg; lia). lia.
Qed.

Lemma dupe_count_of_negative (rows : Z) :
  - 2 ^ 48 < rows < 0 -> dupe_count_of rows = Ok (- (- rows / 20)).
Proof.
  intros Hrows.
  replace rows with (- (- rows)) at 1 by lia.
  rewrite dupe_count_of_opp, dupe_count_of_exact by lia. reflexivity.
Qed.

(** X1 -- For a row count of magnitude below 2^48,
    [int(rows * PROOF_DUPLICATE_RATIO)] is the quotient of [rows] by 20
    rounded towards zero: no double rounding shows, and a negative
    count gives a negative or zero number of duplicates. *)
Theorem dupe_count_truncates (rows : Z) :
  - 2 ^ 48 < rows < 2 ^ 48 -> dupe_count_of rows = Ok (Z.quot rows 20).
Proof.
  intros Hrows. destruct (Z.le_gt_cases 0 rows) as [ Hpos | Hneg ].
  - rewrite dupe_count_of_exact by lia.
    rewrite Z.quot_div_nonneg by lia. reflexivity.
  - rewrite dupe_count_of_negative by lia.
    f_equal. rewrite <- Z.quot_div_nonneg by lia.
    rewrite <- Z.quot_opp_l by lia. f_equal. lia.
Qed.

Lemma dupe_count_truncates_witness :
  - 2 ^ 48 < -39 < 2 ^ 48 /\ dupe_count_of (-39) = Ok (-1).
Proof.
  assert (H : - 2 ^ 48 < -39 < 2 ^ 48) by (split; reflexivity).
  split; [ exact H | ].
  exact (dupe_count_truncates (-39) H).
Defined.

End DupeCountSigned.

Section RandomIp.

Import Generator.

(** X2 -- [random_ip] on a network of fewer than three addresses (a /31
    or a /32) raises [ValueError] without drawing anything: no address
    is left once the first and the last are set aside.  On every other
    network it returns the dotted quad of an address strictly between
    the first and the last. *)
Theorem random_ip_needs_three_addresses (net : IPv4Network) (w : World) :
  if num_addresses net <? 3
  then random_ip net w = (Raise ValueError, w)
  else exists s w', random_ip net w = (Ok s, w') /\ inner_host net s.
Proof.
  destruct (Z.ltb_spec (num_addresses net) 3) as [ Hsmall | Hbig ].
  - unfold random_ip, randint.
    replace (num_addresses net - 2 <? 1) with true
      by (symmetry; apply Z.ltb_lt; lia).
    reflexivity.
  - destruct (yields_random_ip (fun _ => True) net Hbig w) as (s & w' & E & _ & Hs).
    + intros i. exact I.
    + exists s, w'. split; assumption.
Qed.

(** X3 -- Every address of the network strictly between its first and
    its last can come out of [random_ip], those that end in .0 or in
    .255 included: only the two ends of the whole range are skipped. *)
Theorem random_ip_reaches_every_inner_host (net : IPv4Network) (h : Z) :
  1 <= h <= num_addresses net - 2 ->
  exists w, fst (random_ip net w) = Ok (ip_str (network_address net + h)).
Proof.
  intros Hh.
  exists (mkWorld (fun _ => Z.to_N (h - 1)) (fun _ => 0) [] []
                  (fun _ _ => Accepted) (fun _ => None)).
  unfold random_ip, randint.
  replace (num_addresses net - 2 <? 1) with false
    by (symmetry; apply Z.ltb_ge; lia).
  unfold randbelow, bind, draw, ret, lift. cbn [entropy].
  assert (Hmod : Z.of_nat (N.to_nat (Z.to_N (h - 1)
                   mod N.of_nat (Z.to_nat (num_addresses net - 2 - 1 + 1))))
                 = h - 1).
  { rewrite N.mod_small by lia. lia. }
  rewrite Hmod.
  unfold net_getitem, broadcast_address.
  replace (0 <=? 1 + (h - 1)) with true by (symmetry; apply Z.leb_le; lia).
  replace (network_address net + num_addresses net - 1
           <? network_address net + (1 + (h - 1)))
    with false by (symmetry; apply Z.ltb_ge; lia).
  cbn [fst]. do 2 f_equal. lia.
Qed.

Lemma random_ip_reaches_every_inner_host_witness :
  1 <= 256 <= num_addresses SRC_NET - 2 /\
  (exists w, fst (random_ip SRC_NET w) = Ok "10.0.1.0"%string) /\
  1 <= 255 <= num_addresses SRC_NET - 2 /\
  (exists w, fst (random_ip SRC_NET w) = Ok "10.0.0.255"%string).
Proof.
  assert (H : 1 <= 256 <= num_addresses SRC_NET - 2)
    by (split; discriminate).
  assert (H' : 1 <= 255 <= num_addresses SRC_NET - 2)
    by (split; discriminate).
  split; [ exact H | ].
  split; [ exact (random_ip_reaches_every_inner_host SRC_NET 256 H) | ].
  split; [ exact H' | ].
  exact (random_ip_reaches_every_inner_host SRC_NET 255 H').
Defined.

End RandomIp.

(* ================================================================= *)
(** ** Further properties: the rows of a generated table *)

Section GeneratedRows.

Import Generator.

Lemma clock_ok_anytime (w : World) : clock_ok anytime w.
Proof. intros i. exact I. Qed.

Lemma yields_for_days_rows (Q : Row -> Prop) (per_day : nat) :
  (forall d, yields anytime (synth_row d) Q) ->
  forall offsets records,
    yields anytime (for_days offsets per_day records)
           (fun out => exists new, out = records ++ new /\ Forall Q new).
Proof.
  intros Hrow. induction offsets as [ | offset rest IH ]; intros records; simpl.
  - apply yields_ret. exists []. rewrite app_nil_r. auto.
  - eapply yields_bind; [ apply yields_append_rows; apply Hrow | ].
    intros records' (block & -> & _ & Hblock).
    eapply yields_weaken; [ apply IH | ].
    intros out (new & -> & Hnew).
    exists (block ++ new). rewrite app_assoc.
    split; [ reflexivity | apply Forall_app; auto ].
Qed.

Lemma yields_base_records_rows (Q : Row -> Prop) (rows : Z) :
  (forall d, yields anytime (synth_row d) Q) ->
  yields anytime (base_records rows) (Forall Q).
Proof.
  intros Hrow. unfold base_records.
  eapply yields_bind; [ apply yields_for_days_rows; exact Hrow | ].
  intros records (fixed & -> & Hfixed).
  eapply yields_weaken.
  - apply yields_append_rows with (Q := Q).
    eapply yields_bind; [ apply yields_randint; lia | ].
    intros d _. apply Hrow.
  - intros out (extra & -> & _ & Hextra).
    apply Forall_app. auto.
Qed.

(** What every freshly drawn row satisfies, and a forced status keeps,
    every row of a returned table satisfies. *)
Lemma generated_rows_invariant (Q : Row -> Prop) :
  (forall d, yields anytime (synth_row d) Q) ->
  (forall d s, same_but_status d s -> Q s -> Q d) ->
  forall rows w df,
    fst (generate_notables rows w) = Ok df -> Forall Q df.
Proof.
  intros Hrow Hkeep rows w df Hdf.
  destruct (generate_notables_returned rows w df Hdf)
    as (base & srcs & dupes & dc & Eb & _ & _ & _ & _ & Hinj).
  destruct (yields_base_records_rows Q rows Hrow w (clock_ok_anytime w))
    as (base' & w1 & E1 & _ & Hbase).
  rewrite E1 in Eb. cbn in Eb. injection Eb as ->.
  destruct Hinj as ((rest & Hsub) & Hcopy & Hperm).
  rewrite Hperm. apply Forall_app. split; [ exact Hbase | ].
  apply Forall_forall. intros d Hd.
  destruct (Forall2_in_left _ _ _ Hcopy d Hd) as (s & Hs & Hds & _).
  apply (Hkeep d s Hds).
  rewrite Forall_forall in Hbase. apply Hbase.
  eapply Permutation_in; [ symmetry; exact Hsub | ].
  apply in_or_app. left. exact Hs.
Qed.

Lemma yields_synth_row_pools (d : Z) :
  yields anytime (synth_row d) from_pools.
Proof.
  unfold synth_row.
  eapply yields_bind; [ apply yields_today | ]. intros t _.
  eapply yields_bind; [ apply yields_random_ip; vm_compute; discriminate | ].
  intros s _.
  eapply yields_bind; [ apply yields_random_ip; vm_compute; discriminate | ].
  intros d' _.
  eapply yields_bind; [ apply yields_choice; discriminate | ]. intros sig Hsig.
  eapply yields_bind; [ apply yields_choice; discriminate | ]. intros cat Hcat.
  eapply yields_bind; [ apply yields_choice; discriminate | ]. intros fn Hfn.
  eapply yields_bind;
    [ apply yields_choices; [ reflexivity | reflexivity ] | ]. intros sev _.
  eapply yields_bind; [ apply yields_choice; discriminate | ]. intros u Hu.
  eapply yields_bind;
    [ apply yields_choices; [ reflexivity | reflexivity ] | ]. intros st _.
  apply yields_ret. unfold from_pools. cbn. auto.
Qed.

(** X4 -- Every row of a table the generator returns, injected rows
    included, has its signature, category, file name and user taken
    from the four fixed pools. *)
Theorem generated_rows_from_pools (rows : Z) (w : World) (df : DataFrame) :
  fst (generate_notables rows w) = Ok df -> Forall from_pools df.
Proof.
  apply generated_rows_invariant.
  - apply yields_synth_row_pools.
  - intros d s (_ & _ & _ & Hsig & Hcat & Hfn & _ & Hu) (S1 & S2 & S3 & S4).
    unfold from_pools. rewrite Hsig, Hcat, Hfn, Hu. auto.
Qed.

Lemma generated_rows_from_pools_witness :
  fst (generate_notables 100 sample_world) = Ok table_100 /\
  Forall from_pools table_100.
Proof.
  assert (H : fst (generate_notables 100 sample_world) = Ok table_100)
    by (vm_compute; reflexivity).
  split; [ exact H | ].
  exact (generated_rows_from_pools 100 sample_world table_100 H).
Defined.

Lemma string_append_assoc (s1 s2 s3 : string) :
  ((s1 ++ s2) ++ s3 = s1 ++ (s2 ++ s3))%string.
Proof.
  induction s1 as [ | c s1 IH ]; simpl; [ reflexivity | ].
  rewrite IH. reflexivity.
Qed.

Lemma inner_host_two_octets (net : IPv4Network) (a b : Z) (s : string) :
  0 <= a <= 255 -> 0 <= b <= 255 ->
  network_address net = ip a b 0 0 -> prefixlen net = 16 ->
  inner_host net s ->
  two_octets (Py.str a ++ "." ++ Py.str b ++ ".") s.
Proof.
  intros Ha Hb Hnet Hlen (x & -> & Hx).
  unfold broadcast_address, num_addresses in Hx. rewrite Hnet, Hlen in Hx.
  change (2 ^ (32 - 16)) with 65536 in Hx. unfold ip in Hx.
  assert (Hh : 0 <= x - (a * 256 + b) * 65536 < 65536) by lia.
  assert (E3 : x / 65536 = a * 256 + b).
  { symmetry. apply Z.div_unique with (r := x - (a * 256 + b) * 65536); lia. }
  assert (E4 : x / 16777216 = a).
  { symmetry. apply Z.div_unique with (r := x - a * 16777216); lia. }
  exists (x / 256 mod 256), (x mod 256).
  pose proof (Z.mod_pos_bound (x / 256) 256 ltac:(lia)).
  pose proof (Z.mod_pos_bound x 256 ltac:(lia)).
  split; [ lia | ]. split; [ lia | ].
  unfold ip_str. rewrite E3, E4.
  rewrite (Z.mod_small a 256) by lia.
  replace ((a * 256 + b) mod 256) with b.
  2:{ apply Z.mod_unique with (q := a); lia. }
  rewrite !string_append_assoc. reflexivity.
Qed.

(** X5 -- In every row of a returned table the source address reads
    10.0.c.d and the destination address reads 192.168.c.d, with c and d
    between 0 and 255. *)
Theorem generated_addresses_read (rows : Z) (w : World) (df : DataFrame) :
  fst (generate_notables rows w) = Ok df ->
  Forall (fun r => two_octets "10.0." (src r) /\
                   two_octets "192.168." (dest r)) df.
Proof.
  intros Hdf.
  destruct (generate_notables_returned rows w df Hdf)
    as (base & srcs & dupes & dc & _ & Hbase & _ & _ & _ & Hinj).
  pose proof (injected_well_formed _ _ _ _
                (base_layout_well_formed _ _ _ _ Hbase) Hinj) as Hwf.
  eapply Forall_impl; [ | exact Hwf ].
  intros r (_ & _ & Hsrc & Hdest). split.
  - apply (inner_host_two_octets SRC_NET 10 0); try lia; try reflexivity.
    exact Hsrc.
  - apply (inner_host_two_octets DEST_NET 192 168); try lia; try reflexivity.
    exact Hdest.
Qed.

Lemma generated_addresses_read_witness :
  fst (generate_notables 100 sample_world) = Ok table_100 /\
  Forall (fun r => two_octets "10.0." (src r) /\
                   two_octets "192.168." (dest r)) table_100.
Proof.
  assert (H : fst (generate_notables 100 sample_world) = Ok table_100)
    by (vm_compute; reflexivity).
  split; [ exact H | ].
  exact (generated_addresses_read 100 sample_world table_100 H).
Defined.

End GeneratedRows.

(* ================================================================= *)
(** ** Further properties: window, sizes and the generator's [main] *)

Section GeneratorEdges.

Import Generator.

Lemma range_bounds (a b x : Z) : In x (range a b) -> a <= x < b.
Proof.
  unfold range. intros H. apply in_map_iff in H.
  destruct H as (i & <- & Hi). apply in_seq in Hi. lia.
Qed.

Lemma day_blocks_offsets (P : Z -> Prop) (per_day : nat) (lo hi : Z) :
  forall offsets blocks,
    Forall2 (day_block P per_day) offsets blocks ->
    Forall (fun d => lo <= d <= hi) offsets ->
    Forall (fun r => exists d, lo <= d <= hi /\ stamped P d r)
           (List.concat blocks).
Proof.
  induction 1 as [ | offset block offsets blocks [_ Hb] _ IH ];
    intros Hoff; simpl.
  - constructor.
  - inversion Hoff as [ | ? ? Ho Hrest ]; subst.
    apply Forall_app. split; [ | apply IH; exact Hrest ].
    eapply Forall_impl; [ | exact Hb ].
    intros r [_ Hr]. exists offset. split; assumption.
Qed.

Lemma base_layout_window (P : Z -> Prop) per_day extra_rows base :
  base_layout P per_day extra_rows base ->
  Forall (fun r => exists d, 0 <= d <= 89 /\ stamped P d r) base.
Proof.
  intros (blocks & extra & -> & Hblocks & _ & Hextra).
  apply Forall_app. split.
  - eapply day_blocks_offsets; [ exact Hblocks | ].
    apply Forall_forall. intros d Hd. apply range_bounds in Hd. lia.
  - eapply Forall_impl; [ | exact Hextra ]. intros r [_ Hr]. exact Hr.
Qed.

(** X6 -- Every row of a returned table, injected rows included, is
    stamped a whole number of days, from 0 to 89, before a reading of
    the clock; so when the clock reads between [t0] and [t1] while the
    table is built, every timestamp lies between [t0] minus 89 days and
    [t1]. *)
Theorem generated_rows_in_window
        (rows : Z) (w : World) (df : DataFrame) (t0 t1 : Z) :
  fst (generate_notables rows w) = Ok df ->
  (forall i, t0 <= clock w i <= t1) ->
  Forall (fun r => (exists d, 0 <= d <= 89 /\ on_day w d r) /\
                   t0 - timedelta_days 89 <= _time r <= t1) df.
Proof.
  intros Hdf Hclock.
  destruct (generate_notables_returned rows w df Hdf)
    as (base & srcs & dupes & dc & _ & Hbase & _ & _ & _ & Hinj).
  apply base_layout_window in Hbase.
  assert (Hday : Forall (fun r => exists d, 0 <= d <= 89 /\ on_day w d r) df).
  { destruct Hinj as ((rest & Hsub) & Hcopy & Hperm).
    rewrite Hperm. apply Forall_app. split.
    - eapply Forall_impl; [ | exact Hbase ].
      intros r (d & Hd & t & (i & ->) & Ht). exists d. split; [ exact Hd | ].
      exists i. exact Ht.
    - apply Forall_forall. intros x Hx.
      destruct (Forall2_in_left _ _ _ Hcopy x Hx) as (s & Hs & (Ht & _) & _).
      assert (Hin : In s base).
      { eapply Permutation_in; [ symmetry; exact Hsub | ].
        apply in_or_app. left. exact Hs. }
      rewrite Forall_forall in Hbase.
      destruct (Hbase s Hin) as (d & Hd & t & (i & ->) & Hst).
      exists d. split; [ exact Hd | ]. exists i. rewrite Ht. exact Hst. }
  eapply Forall_impl; [ | exact Hday ].
  intros r (d & Hd & i & Hr). split.
  - exists d. split; [ exact Hd | ]. exists i. exact Hr.
  - specialize (Hclock i). unfold timedelta_days in *. lia.
Qed.

Lemma generated_rows_in_window_witness :
  fst (generate_notables 95 steady_world) = Ok table_steady /\
  (forall i, sample_now <= clock steady_world i <= sample_now) /\
  Forall (fun r => (exists d, 0 <= d <= 89 /\ on_day steady_world d r) /\
                   sample_now - timedelta_days 89 <= _time r <= sample_now)
         table_steady.
Proof.
  assert (H : fst (generate_notables 95 steady_world) = Ok table_steady)
    by (vm_compute; reflexivity).
  assert (Hc : forall i, sample_now <= clock steady_world i <= sample_now)
    by (intros i; cbn; lia).
  split; [ exact H | ]. split; [ exact Hc | ].
  exact (generated_rows_in_window 95 steady_world table_steady
                                  sample_now sample_now H Hc).
Defined.

(** X7 -- A request for fewer than 90 rows is rounded up to one row a
    day: the base set is one block of exactly one row for each day
    offset 0..89 and nothing else, and the returned table has
    90 + N div 20 rows. *)
Theorem small_request_fills_every_day (rows : Z) (w : World) :
  0 <= rows < 90 ->
  exists base df,
    fst (base_records rows w) = Ok base /\
    fst (generate_notables rows w) = Ok df /\
    base_layout (readings w) 1 0 base /\
    List.length base = 90%nat /\
    Z.of_nat (List.length df) = 90 + rows / 20.
Proof.
  intros Hrows.
  assert (Hbound : 0 <= rows < 2 ^ 48).
  { split; [ lia | ]. apply Z.lt_trans with 90; [ lia | reflexivity ]. }
  destruct (generate_notables_total rows w Hbound)
    as (df & base & srcs & dupes & E & Eb & Hbase & Hlen & Hinj).
  destruct (output_size rows w Hbound) as (base' & df' & Eb' & E' & Hb & Hd).
  replace base' with base in * by congruence.
  replace df' with df in * by congruence.
  assert (Hper : per_day_of rows = 1).
  { unfold per_day_of. rewrite Z.div_small by lia. reflexivity. }
  assert (Hrem : Z.to_nat (remainder_of rows) = 0%nat).
  { unfold remainder_of. rewrite Hper. lia. }
  rewrite Hper, Hrem in Hbase.
  exists base, df.
  split; [ exact Eb | ]. split; [ exact E | ]. split; [ exact Hbase | ].
  split; lia.
Qed.

Lemma small_request_fills_every_day_witness :
  0 <= 40 < 90 /\
  exists base df,
    fst (base_records 40 sample_world) = Ok base /\
    fst (generate_notables 40 sample_world) = Ok df /\
    base_layout (readings sample_world) 1 0 base /\
    List.length base = 90%nat /\
    Z.of_nat (List.length df) = 90 + 40 / 20.
Proof.
  assert (H : 0 <= 40 < 90) by (split; [ discriminate | reflexivity ]).
  split; [ exact H | ].
  exact (small_request_fills_every_day 40 sample_world H).
Defined.

Lemma negative_base_size (rows : Z) :
  rows < 0 ->
  Z.of_nat (90 * Z.to_nat (per_day_of rows) + Z.to_nat (remainder_of rows))
  = rows mod 90.
Proof.
  intros Hneg. unfold remainder_of, per_day_of.
  pose proof (Z.div_mod rows 90 ltac:(lia)) as Hdm.
  pose proof (Z.mod_pos_bound rows 90 ltac:(lia)) as Hmod.
  assert (rows / 90 < 0) by (apply Z.div_lt_upper_bound; lia).
  destruct (Z.eqb_spec (rows / 90) 0) as [ Hz | Hnz ]; lia.
Qed.

(** X8 -- A negative row count is not refused.  From -19 to -1 the
    loops over the days add nothing, the remainder loop adds
    90 - |rows| rows on random days, no duplicate is injected, and the
    table is returned with those 71 to 89 rows. *)
Theorem slightly_negative_request (rows : Z) (w : World) :
  -20 < rows < 0 ->
  exists df,
    fst (generate_notables rows w) = Ok df /\
    Z.of_nat (List.length df) = 90 + rows.
Proof.
  intros Hrows.
  destruct (generate_notables_cases (readings w) rows w (clock_ok_readings w))
    as (base & w1 & E & Hbase & Hcases).
  rewrite dupe_count_of_negative in Hcases
    by (split; [ apply Z.lt_trans with (-20); [ reflexivity | lia ] | lia ]).
  rewrite (Z.div_small (- rows) 20) in Hcases by lia. cbn in Hcases.
  destruct Hcases as (df & Edf & _ & _ & Hperm).
  exists df. split; [ exact Edf | ].
  apply Permutation_length in Hperm. rewrite app_nil_r in Hperm.
  rewrite Hperm, (base_layout_length _ _ _ _ Hbase).
  rewrite negative_base_size by lia.
  symmetry. apply Z.mod_unique with (q := -1); lia.
Qed.

Lemma slightly_negative_request_witness :
  -20 < -5 < 0 /\
  exists df,
    fst (generate_notables (-5) sample_world) = Ok df /\
    Z.of_nat (List.length df) = 90 + -5.
Proof.
  assert (H : -20 < -5 < 0) by (split; reflexivity).
  split; [ exact H | ].
  exact (slightly_negative_request (-5) sample_world H).
Defined.

(** X9 -- A row count of -20 or below (above -2^48) makes
    [int(rows * 0.05)] negative, and [df.sample] refuses it:
    [generate_notables] raises [ValueError] after the base rows were
    drawn, and [main] ends on that error with no file written and
    nothing printed. *)
Theorem very_negative_request_raises
        (a : string) (rows : Z) (argv : list string) (w : World) :
  - 2 ^ 48 < rows <= -20 ->
  nth_error argv 1 = Some a -> Py.int a = Ok rows ->
  fst (generate_notables rows w) = Raise ValueError /\
  fst (main argv w) = Raise ValueError /\
  files (snd (main argv w)) = files w /\
  stdout (snd (main argv w)) = stdout w.
Proof.
  intros Hrows Harg Hint.
  destruct (generate_notables_cases (readings w) rows w (clock_ok_readings w))
    as (base & w1 & E & Hbase & Hcases).
  rewrite dupe_count_of_negative in Hcases by lia.
  assert (Hq : 1 <= - rows / 20) by (apply Z.div_le_lower_bound; lia).
  replace (- (- rows / 20) =? 0) with false in Hcases
    by (symmetry; apply Z.eqb_neq; lia).
  replace (- (- rows / 20) <? 0) with true in Hcases
    by (symmetry; apply Z.ltb_lt; lia).
  cbn [orb] in Hcases.
  split; [ exact Hcases | ].
  destruct (quiet_generate_notables rows w) as (Hf & Hs & _).
  destruct (generate_notables rows w) as [r w2] eqn:Eg.
  cbn in Hcases, Hf, Hs. subst r.
  assert (Em : main argv w = (Raise ValueError, w2)).
  { unfold main. rewrite Harg.
    rewrite (bind_ok _ _ w rows w) by (unfold lift; rewrite Hint; reflexivity).
    apply bind_raise. exact Eg. }
  rewrite Em. cbn. auto.
Qed.

Lemma very_negative_request_raises_witness :
  - 2 ^ 48 < -100 <= -20 /\
  nth_error ["generator"; "-100"]%string 1 = Some "-100"%string /\
  Py.int "-100" = Ok (-100) /\
  fst (generate_notables (-100) sample_world) = Raise ValueError /\
  fst (main ["generator"; "-100"]%string sample_world) = Raise ValueError /\
  files (snd (main ["generator"; "-100"]%string sample_world)) = [] /\
  stdout (snd (main ["generator"; "-100"]%string sample_world)) = [].
Proof.
  assert (H : - 2 ^ 48 < -100 <= -20) by (split; [ reflexivity | discriminate ]).
  split; [ exact H | ]. split; [ reflexivity | ]. split; [ reflexivity | ].
  exact (very_negative_request_raises "-100" (-100)
           ["generator"; "-100"]%string sample_world H eq_refl eq_refl).
Defined.

End GeneratorEdges.

Section GeneratorMainOutcomes.

Import Generator.

Lemma main_parse_raise (argv : list string) (a : string) (e : Exn)
      (w : World) :
  nth_error argv 1 = Some a -> Py.int a = Raise e ->
  main argv w = (Raise e, w).
Proof.
  intros Ea Ei. unfold main. apply bind_raise.
  rewrite Ea. unfold lift. rewrite Ei. reflexivity.
Qed.

Lemma main_generate_raise (argv : list string) (rows : Z) (w : World)
      (e : Exn) :
  requested argv rows ->
  fst (generate_notables rows w) = Raise e ->
  files (snd (main argv w)) = files w /\
  stdout (snd (main argv w)) = stdout w.
Proof.
  intros Hreq E.
  destruct (quiet_generate_notables rows w) as (Hf & Hs & _).
  destruct (generate_notables rows w) as [[df | e1] w1] eqn:E1;
    [ discriminate | ].
  assert (Em : main argv w = (Raise e1, w1)).
  { unfold main.
    rewrite (bind_ok _ _ _ _ _ (requested_read argv rows w Hreq)).
    apply bind_raise. exact E1. }
  rewrite Em. cbn [snd] in Hf, Hs |- *. auto.
Qed.

(** X10 -- With a row count from 0 up (given, or the default 20000) the
    generator builds its table, and when the operating system takes the
    write and the console the line, [main] returns normally, having
    made exactly one write, of that table, at [Path] of the second
    argument (or notables.csv), and printed exactly one line, carrying
    the number of rows with thousands separators and that path. *)
Theorem generator_main_writes_one_file
        (argv : list string) (rows : Z) (w : World) :
  match nth_error argv 1 with
  | Some a => Py.int a = Ok rows
  | None => rows = ROWS_DEFAULT
  end ->
  0 <= rows < 2 ^ 48 ->
  let out := match nth_error argv 2 with
             | Some p => Path p
             | None => Path "notables.csv"
             end in
  exists df,
    fst (generate_notables rows w) = Ok df /\
    Z.of_nat (List.length df) = Z.max rows 90 + rows / 20 /\
    let line := ("[+] Wrote " ++ fmt_thousands (Z.of_nat (List.length df))
                 ++ " notables → " ++ out)%string in
    (disk_says w out df = Accepted ->
     console_says w line = None ->
     exists w',
       main argv w = (Ok tt, w') /\
       files w' = files w ++ [(out, Whole df)] /\
       stdout w' = stdout w ++ [line]).
Proof.
  intros Harg Hrows out.
  destruct (output_size rows w Hrows) as (base & df & _ & E & _ & Hd).
  exists df. split; [ exact E | ]. split; [ exact Hd | ].
  intros line Hdisk Hcon.
  pose proof (main_outcome argv rows w df Harg E) as H.
  cbv zeta in H.
  change (out_path argv) with out in H.
  change (wrote_line (List.length df) out) with line in H.
  rewrite Hdisk, Hcon in H. destruct H as (H1 & H2 & H3).
  exists (snd (main argv w)).
  split; [ | split; [ exact H2 | exact H3 ] ].
  destruct (main argv w) as [r w']. cbn in H1 |- *. rewrite H1.
  reflexivity.
Qed.

Lemma generator_main_writes_one_file_witness :
  exists df,
    fst (generate_notables 100 sample_world) = Ok df /\
    Z.of_nat (List.length df) = 105 /\
    (disk_says sample_world "/tmp/out.csv" df = Accepted ->
     console_says sample_world "[+] Wrote 105 notables → /tmp/out.csv" = None ->
     exists w',
       main ["generator"; "100"; "/tmp//./out.csv"]%string sample_world
       = (Ok tt, w') /\
       files w' = [("/tmp/out.csv"%string, Whole df)] /\
       stdout w' = ["[+] Wrote 105 notables → /tmp/out.csv"%string]).
Proof.
  assert (H1 : Py.int "100" = Ok 100) by reflexivity.
  assert (H2 : 0 <= 100 < 2 ^ 48) by (split; [ discriminate | reflexivity ]).
  destruct (generator_main_writes_one_file
              ["generator"; "100"; "/tmp//./out.csv"]%string 100 sample_world
              H1 H2) as (df & E & Hlen & Hmain).
  exists df. split; [ exact E | ].
  change (Z.max 100 90 + 100 / 20) with 105 in Hlen.
  split; [ exact Hlen | ].
  cbv zeta in Hmain. rewrite Hlen in Hmain. exact Hmain.
Defined.

(** X11 -- Whenever the generator's [main] ends on an exception,
    nothing has been printed.  No write has been made either, unless
    the table was generated and the exception is the one the write
    broke off with (the path is left torn) or the one [print] raised on
    the line (the whole table is already at the path). *)
Theorem generator_main_fails_clean (argv : list string) (w : World) (e : Exn) :
  fst (main argv w) = Raise e ->
  stdout (snd (main argv w)) = stdout w /\
  (files (snd (main argv w)) = files w \/
   exists rows df,
     requested argv rows /\
     fst (generate_notables rows w) = Ok df /\
     let out := out_path argv in
     (disk_says w out df = Broken e /\
      files (snd (main argv w)) = files w ++ [(out, Torn)] \/
      disk_says w out df = Accepted /\
      console_says w (wrote_line (List.length df) out) = Some e /\
      files (snd (main argv w)) = files w ++ [(out, Whole df)])).
Proof.
  intros Hraise.
  destruct (nth_error argv 1) as [ a | ] eqn:Ea.
  - destruct (Py.int a) as [ rows | e0 ] eqn:Ei.
    + assert (Hreq : requested argv rows).
      { unfold requested. rewrite Ea. exact Ei. }
      destruct (fst (generate_notables rows w)) as [ df | e1 ] eqn:E.
      * pose proof (main_outcome argv rows w df Hreq E) as H.
        cbv zeta in H.
        destruct (disk_says w (out_path argv) df) as [ | e2 | e2 ] eqn:Ed.
        -- destruct (console_says w _) as [ e2 | ] eqn:Ec.
           ++ destruct H as (H1 & H2 & H3). split; [ exact H3 | ].
              right. exists rows, df. split; [ exact Hreq | ].
              split; [ exact E | ]. cbv zeta. right.
              rewrite Ed. split; [ reflexivity | ].
              replace e with e2 by congruence. auto.
           ++ destruct H as (H1 & _). congruence.
        -- destruct H as (_ & H2 & H3). auto.
        -- destruct H as (H1 & H2 & H3). split; [ exact H3 | ].
           right. exists rows, df. split; [ exact Hreq | ].
           split; [ exact E | ]. cbv zeta. left.
           rewrite Ed. replace e with e2 by congruence. auto.
      * destruct (main_generate_raise argv rows w e1 Hreq E) as [Hf Hs].
        auto.
    + rewrite (main_parse_raise argv a e0 w Ea Ei). cbn [snd]. auto.
  - assert (Hreq : requested argv ROWS_DEFAULT).
    { unfold requested. rewrite Ea. reflexivity. }
    destruct (fst (generate_notables ROWS_DEFAULT w)) as [ df | e1 ] eqn:E.
    + pose proof (main_outcome argv _ w df Hreq E) as H.
      cbv zeta in H.
      destruct (disk_says w (out_path argv) df) as [ | e2 | e2 ] eqn:Ed.
      * destruct (console_says w _) as [ e2 | ] eqn:Ec.
        -- destruct H as (H1 & H2 & H3). split; [ exact H3 | ].
           right. exists ROWS_DEFAULT, df. split; [ exact Hreq | ].
           split; [ exact E | ]. cbv zeta. right.
           rewrite Ed. split; [ reflexivity | ].
           replace e with e2 by congruence. auto.
        -- destruct H as (H1 & _). congruence.
      * destruct H as (_ & H2 & H3). auto.
      * destruct H as (H1 & H2 & H3). split; [ exact H3 | ].
        right. exists ROWS_DEFAULT, df. split; [ exact Hreq | ].
        split; [ exact E | ]. cbv zeta. left.
        rewrite Ed. replace e with e2 by congruence. auto.
    + destruct (main_generate_raise argv _ w e1 Hreq E) as [Hf Hs]. auto.
Qed.

Lemma generator_main_fails_clean_witness :
  let w := mute_world in
  let argv := ["generator"; "0"]%string in
  fst (main argv w) = Raise (Other "UnicodeEncodeError") /\
  stdout (snd (main argv w)) = stdout w /\
  (files (snd (main argv w)) = files w \/
   exists rows df,
     requested argv rows /\
     fst (generate_notables rows w) = Ok df /\
     let out := out_path argv in
     (disk_says w out df = Broken (Other "UnicodeEncodeError") /\
      files (snd (main argv w)) = files w ++ [(out, Torn)] \/
      disk_says w out df = Accepted /\
      console_says w (wrote_line (List.length df) out)
      = Some (Other "UnicodeEncodeError") /\
      files (snd (main argv w)) = files w ++ [(out, Whole df)])).
Proof.
  intros w argv.
  assert (H : fst (main argv w) = Raise (Other "UnicodeEncodeError"))
    by (vm_compute; reflexivity).
  split; [ exact H | ].
  exact (generator_main_fails_clean argv w _ H).
Defined.

End GeneratorMainOutcomes.

(* ================================================================= *)
(** ** Further properties: the summarizer's table *)

Section SummaryTable.

Import Summarizer.

Lemma insert_desc_descending (x : Key * Z) (l : list (Key * Z)) :
  descending l -> descending (insert_desc x l).
Proof.
  unfold descending.
  induction l as [ | y l IH ]; intros Hl; simpl.
  - constructor; constructor.
  - inversion Hl as [ | ? ? Hrest Hy ]; subst.
    destruct (Z.leb_spec (snd y) (snd x)) as [ Hle | Hgt ].
    + constructor; [ exact Hl | ].
      constructor; [ exact Hle | ].
      eapply Forall_impl; [ | exact Hy ]. cbn. intros z Hz. lia.
    + constructor; [ apply IH; exact Hrest | ].
      rewrite (insert_desc_perm x l).
      constructor; [ lia | exact Hy ].
Qed.

Lemma sort_values_descending (l : list (Key * Z)) : descending (sort_values l).
Proof.
  induction l as [ | x l IH ]; simpl.
  - constructor.
  - apply insert_desc_descending. exact IH.
Qed.

(** X12 -- Whatever the arguments, the disk and the clock, the clusters
    a run prints are in descending order of [alert_count]. *)
Theorem reported_largest_first
        (argv : list string) (disk : string -> option (Res Frame))
        (clk : nat -> Z) :
  descending (reported (snd (run argv disk clk))).
Proof.
  rewrite run_console.
  destruct (parse_cli argv (boot disk clk)) as [[[] | e] g];
    [ | constructor ].
  destruct (disk (CSV_IN g)) as [ [ df | e ] | ];
    [ | constructor | constructor ].
  destruct (cutoff_of _ _) as [ cutoff | e ]; [ | constructor ].
  destruct (mask_error df cutoff) as [ e | ]; [ constructor | ].
  rewrite reported_console. apply sort_values_descending.
Qed.

Lemma total_count_bump (k : Key) (counts : list (Key * Z)) :
  total_count (bump k counts) = total_count counts + 1.
Proof.
  induction counts as [ | [k0 c] rest IH ]; simpl; [ lia | ].
  destruct (key_eqb k0 k); simpl; lia.
Qed.

Lemma total_count_perm (l l' : list (Key * Z)) :
  Permutation l l' -> total_count l = total_count l'.
Proof.
  induction 1 as [ | x l l' _ IH | x y l | l l' l'' _ IH1 _ IH2 ];
    simpl; lia.
Qed.

Lemma total_count_group_sizes (focus : list Key) :
  total_count (sort_values (group_sizes focus))
  = Z.of_nat (List.length focus).
Proof.
  unfold group_sizes.
  rewrite (total_count_perm _ _ (sort_values_perm _)).
  assert (H : forall counts,
             total_count (fold_left (fun counts k => bump k counts)
                                    focus counts)
             = total_count counts + Z.of_nat (List.length focus)).
  { induction focus as [ | k focus IH ]; intros counts; simpl List.length.
    - simpl. lia.
    - cbn [fold_left]. rewrite IH, total_count_bump. lia. }
  rewrite H. simpl. lia.
Qed.

(** The rows [dropna] keeps of [focus_of] are the rows of the file that
    pass the mask and miss no grouping cell. *)
Lemma dropna_focus_of (cutoff : Z) (df : list Alert) :
  List.length (dropna (focus_of cutoff df))
  = List.length (filter (fun r => filt cutoff r
                                  && negb (has_na (group_cols r))) df).
Proof.
  unfold dropna, focus_of.
  induction df as [ | r df IH ]; [ reflexivity | ].
  cbn [filter map].
  destruct (filt cutoff r); cbn [andb map filter]; [ | exact IH ].
  destruct (has_na (group_cols r)); cbn [negb List.length]; congruence.
Qed.

Lemma value_counts_positive (focus : list Key) :
  Forall (fun kc => 1 <= snd kc) (value_counts focus).
Proof.
  apply Forall_forall. intros [k c] Hin.
  apply value_counts_lines in Hin. cbn. tauto.
Qed.

Lemma total_count_query (min_cluster : Z) (counts : list (Key * Z)) :
  Forall (fun kc => 1 <= snd kc) counts ->
  total_count (query min_cluster counts) <= total_count counts /\
  (min_cluster <= 1 -> query min_cluster counts = counts).
Proof.
  unfold query. induction 1 as [ | [k c] l Hc _ [IH1 IH2] ]; simpl.
  - split; [ lia | reflexivity ].
  - cbn in Hc. destruct (Z.leb_spec min_cluster c); simpl.
    + split; [ lia | ]. intros Hm. rewrite IH2 by exact Hm. reflexivity.
    + split; [ lia | ]. intros Hm. lia.
Qed.

(** X14 -- In a run that gets as far as the table, the counts of
    [value_counts] add up to the number of rows that pass the mask and
    miss no grouping cell: each such row is counted once, and a passing
    row with a missing cell is not counted.  The counts on the printed
    table add up to at most that number, and to exactly that number
    when the minimum cluster size is 1 or less. *)
Theorem counts_add_up
        (argv : list string) (disk : string -> option (Res Frame))
        (clk : nat -> Z) (g : World) (df : Frame) (cutoff : Z) :
  reaches_table argv disk clk g df cutoff ->
  let counted :=
    Z.of_nat (List.length
                (filter (fun r => filt cutoff r
                                  && negb (has_na (group_cols r)))
                        (rows df))) in
  let printed := total_count (reported (snd (run argv disk clk))) in
  total_count (value_counts (focus_of cutoff (rows df))) = counted /\
  printed <= counted /\
  (MIN_CLUSTER g <= 1 -> printed = counted).
Proof.
  intros Hreach counted printed.
  subst printed counted.
  rewrite (run_reaches _ _ _ _ _ _ Hreach), reported_console.
  set (counted := Z.of_nat (List.length (filter _ (rows df)))).
  assert (Hall : total_count (value_counts (focus_of cutoff (rows df)))
                 = counted).
  { unfold value_counts. rewrite total_count_group_sizes, dropna_focus_of.
    reflexivity. }
  unfold summary_of.
  rewrite (total_count_perm _ _ (sort_values_perm _)).
  destruct (total_count_query (MIN_CLUSTER g) _
              (value_counts_positive (focus_of cutoff (rows df))))
    as [Hle Heq].
  split; [ exact Hall | ]. split; [ rewrite <- Hall; exact Hle | ].
  intros Hm. rewrite (Heq Hm). exact Hall.
Qed.

Lemma counts_add_up_witness :
  let argv := ["data_viz.py"; "notables.csv"; "30"; "1"]%string in
  let clk := fun _ : nat => sample_now in
  let g := mkWorld "notables.csv" 30 1 mixed_disk [] clk [] in
  let cutoff := sample_now - timedelta_days 30 in
  let printed := total_count (reported (snd (run argv mixed_disk clk))) in
  reaches_table argv mixed_disk clk g (plain mixed_file) cutoff /\
  List.length (filter (filt cutoff) mixed_file) = 5%nat /\
  printed = 3.
Proof.
  intros argv clk g cutoff printed.
  assert (Hreach : reaches_table argv mixed_disk clk g (plain mixed_file)
                                 cutoff).
  { split; [ reflexivity | ]. split; [ reflexivity | ].
    split; reflexivity. }
  assert (Hm : MIN_CLUSTER g <= 1) by discriminate.
  split; [ exact Hreach | ]. split; [ reflexivity | ].
  exact (proj2 (proj2 (counts_add_up argv mixed_disk clk g (plain mixed_file)
                                     cutoff Hreach)) Hm).
Defined.

End SummaryTable.

(* ================================================================= *)
(** ** Further properties: runs of the summarizer compared *)

Section SummarizerRuns.

Import Summarizer.

Lemma contributing_wider (k : Key) (c1 c2 : Z) (df : list Alert) :
  c2 <= c1 ->
  (List.length (contributing k c1 df) <= List.length (contributing k c2 df))%nat.
Proof.
  intros Hc. unfold contributing. apply filter_length_mono.
  intros r. rewrite !andb_true_iff, !filt_spec.
  intros (Hk & (t & Ht & Hle) & Hst).
  split; [ exact Hk | ]. split; [ | exact Hst ].
  exists t. split; [ exact Ht | lia ].
Qed.

Lemma parse_four (prog path days mc : string) (w : World) :
  parse_cli [prog; path; days; mc] w
  = match Py.int days with
    | Raise e =>
        (Raise e, mkWorld path (LOOKBACK_DAYS w) (MIN_CLUSTER w)
                          (fs w) (opened w) (clock w) (stdout w))
    | Ok d =>
        match Py.int mc with
        | Raise e =>
            (Raise e, mkWorld path d (MIN_CLUSTER w)
                              (fs w) (opened w) (clock w) (stdout w))
        | Ok m =>
            (Ok tt, mkWorld path d m (fs w) (opened w) (clock w) (stdout w))
        end
    end.
Proof.
  unfold parse_cli, bind, set_CSV_IN, set_LOOKBACK_DAYS, set_MIN_CLUSTER,
    modify, lift, ret. cbn [nth_error].
  destruct (Py.int days); [ | reflexivity ].
  destruct (Py.int mc); reflexivity.
Qed.

(** X15 -- For one file, one minimum cluster size and one clock
    reading, when the run with the longer lookback gets as far as the
    table, it prints every combination the run with the shorter
    lookback prints, with a count at least as large, and so prints at
    least as many clusters. *)
Theorem lookback_monotone
        (prog path s1 s2 mc : string) (d1 d2 : Z)
        (disk : string -> option (Res Frame)) (clk : nat -> Z)
        (g2 : World) (df : Frame) (c2 : Z) :
  Py.int s1 = Ok d1 -> Py.int s2 = Ok d2 -> d1 <= d2 ->
  reaches_table [prog; path; s2; mc] disk clk g2 df c2 ->
  let out1 := reported (snd (run [prog; path; s1; mc] disk clk)) in
  let out2 := reported (snd (run [prog; path; s2; mc] disk clk)) in
  (forall k c, In (k, c) out1 -> exists c', In (k, c') out2 /\ c <= c') /\
  (List.length out1 <= List.length out2)%nat.
Proof.
  intros H1 H2 Hd Hreach out1 out2. subst out1 out2.
  rewrite (run_reaches _ _ _ _ _ _ Hreach), reported_console.
  destruct Hreach as (Hparse & Hfile & Hcut & _).
  rewrite parse_four, H2 in Hparse.
  rewrite run_console, parse_four, H1.
  destruct (Py.int mc) as [ m | e ]; [ | discriminate ].
  injection Hparse as <-.
  cbn [CSV_IN LOOKBACK_DAYS MIN_CLUSTER boot clock] in Hfile, Hcut |- *.
  rewrite Hfile.
  destruct (cutoff_of (clk 0%nat) d1) as [ c1 | e ] eqn:Hcut1;
    [ | split; [ intros k c [] | cbn; lia ] ].
  destruct (mask_error df c1) as [ e | ];
    [ split; [ intros k c [] | cbn; lia ] | ].
  rewrite reported_console.
  apply cutoff_of_ok in Hcut, Hcut1.
  assert (Hc : c2 <= c1) by (unfold timedelta_days in *; lia).
  assert (Hkeys : forall k c,
             In (k, c) (summary_of m (focus_of c1 (rows df))) ->
             exists c', In (k, c') (summary_of m (focus_of c2 (rows df)))
                        /\ c <= c').
  { intros k c Hin. apply summary_of_lines in Hin.
    destruct Hin as (Hk & -> & Hpos & Hm).
    pose proof (contributing_wider k c1 c2 (rows df) Hc) as Hw.
    exists (Z.of_nat (List.length (contributing k c2 (rows df)))).
    split; [ apply summary_of_lines; split; [ exact Hk | lia ] | lia ]. }
  split; [ exact Hkeys | ].
  rewrite <- (length_map fst (summary_of m (focus_of c1 (rows df)))).
  rewrite <- (length_map fst (summary_of m (focus_of c2 (rows df)))).
  apply NoDup_incl_length; [ apply summary_of_nodup | ].
  intros k Hk. apply in_map_iff in Hk.
  destruct Hk as ([k0 c] & Hfst & Hin). cbn in Hfst. subst k0.
  destruct (Hkeys k c Hin) as (c' & Hin' & _).
  change k with (fst (k, c')). apply in_map. exact Hin'.
Qed.

Lemma lookback_monotone_witness :
  let clk := fun _ : nat => sample_now in
  let g2 := mkWorld "notables.csv" 30 2 aged_disk [] clk [] in
  let out1 := reported (snd (run ["data_viz.py"; "notables.csv"; "0"; "2"]%string
                                 aged_disk clk)) in
  let out2 := reported (snd (run ["data_viz.py"; "notables.csv"; "30"; "2"]%string
                                 aged_disk clk)) in
  Py.int "0" = Ok 0 /\ Py.int "30" = Ok 30 /\ 0 <= 30 /\
  reaches_table ["data_viz.py"; "notables.csv"; "30"; "2"]%string aged_disk clk
                g2 (plain aged_file) (sample_now - timedelta_days 30) /\
  List.length out1 = 1%nat /\ List.length out2 = 2%nat /\
  (forall k c, In (k, c) out1 -> exists c', In (k, c') out2 /\ c <= c') /\
  (List.length out1 <= List.length out2)%nat.
Proof.
  intros clk g2 out1 out2.
  assert (H1 : Py.int "0" = Ok 0) by reflexivity.
  assert (H2 : Py.int "30" = Ok 30) by reflexivity.
  assert (Hd : 0 <= 30) by discriminate.
  assert (Hreach : reaches_table
                     ["data_viz.py"; "notables.csv"; "30"; "2"]%string
                     aged_disk clk g2 (plain aged_file)
                     (sample_now - timedelta_days 30)).
  { split; [ reflexivity | ]. split; [ reflexivity | ].
    split; reflexivity. }
  split; [ exact H1 | ]. split; [ exact H2 | ]. split; [ exact Hd | ].
  split; [ exact Hreach | ].
  split; [ vm_compute; reflexivity | ].
  split; [ vm_compute; reflexivity | ].
  exact (lookback_monotone "data_viz.py" "notables.csv" "0" "30" "2" 0 30
                           aged_disk clk g2 (plain aged_file) _
                           H1 H2 Hd Hreach).
Defined.

Lemma console_exit (cutoff min_cluster : Z) (df : list Alert) :
  fst (console cutoff min_cluster df) = 0.
Proof.
  unfold console. destruct (is_empty _); [ reflexivity | ].
  destruct (is_empty _); reflexivity.
Qed.

Lemma contributing_perm (k : Key) (cutoff : Z) (df df' : list Alert) :
  Permutation df df' ->
  List.length (contributing k cutoff df)
  = List.length (contributing k cutoff df').
Proof. intros H. unfold contributing. apply filter_length_perm. exact H. Qed.

Lemma nodup_keys_nodup (l : list (Key * Z)) :
  NoDup (map fst l) -> NoDup l.
Proof.
  induction l as [ | x l IH ]; simpl; intros H; [ constructor | ].
  inversion H as [ | ? ? Hnotin Hrest ]; subst.
  constructor; [ | apply IH; exact Hrest ].
  intros Hin. apply Hnotin. apply in_map. exact Hin.
Qed.

(** X16 -- The order of the rows in the file does not matter: for the
    same arguments and clock reading, a file and any reordering of it
    give the same exit status and the same clusters with the same
    counts (lines of equal count may come in another order). *)
Theorem row_order_is_irrelevant
        (argv : list string) (disk disk' : string -> option (Res Frame))
        (clk : nat -> Z) :
  (forall p, match disk p, disk' p with
             | Some (Ok df), Some (Ok df') => reordered df df'
             | Some (Raise e), Some (Raise e') => e = e'
             | None, None => True
             | _, _ => False
             end) ->
  fst (run argv disk clk) = fst (run argv disk' clk) /\
  Permutation (reported (snd (run argv disk clk)))
              (reported (snd (run argv disk' clk))).
Proof.
  intros Hdisk. rewrite !run_console.
  destruct (parse_cli_globals argv (boot disk clk) (boot disk' clk)
                              eq_refl eq_refl eq_refl)
    as (Hr & Hcsv & Hdays & Hmin).
  destruct (parse_cli argv (boot disk clk)) as [r g].
  destruct (parse_cli argv (boot disk' clk)) as [r' g'].
  cbn in Hr, Hcsv, Hdays, Hmin. subst r'.
  destruct r as [ [] | e ]; [ | split; reflexivity ].
  rewrite <- Hcsv, <- Hdays, <- Hmin.
  specialize (Hdisk (CSV_IN g)).
  destruct (disk (CSV_IN g)) as [ [ df | e ] | ],
           (disk' (CSV_IN g)) as [ [ df' | e' ] | ];
    try contradiction;
    [ | subst e'; split; reflexivity | split; reflexivity ].
  destruct Hdisk as [Hperm Hmask].
  destruct (cutoff_of (clk 0%nat) (LOOKBACK_DAYS g)) as [ cutoff | e ];
    [ | split; reflexivity ].
  rewrite <- Hmask.
  destruct (mask_error df cutoff) as [ e | ]; [ split; reflexivity | ].
  assert (Hlines : Permutation
                     (summary_of (MIN_CLUSTER g) (focus_of cutoff (rows df)))
                     (summary_of (MIN_CLUSTER g) (focus_of cutoff (rows df')))).
  { apply NoDup_Permutation;
      try (apply nodup_keys_nodup; apply summary_of_nodup).
    intros [k c]. rewrite !summary_of_lines.
    rewrite (contributing_perm k cutoff _ _ Hperm). reflexivity. }
  split; [ | rewrite !reported_console; exact Hlines ].
  rewrite !console_exit. reflexivity.
Qed.

Lemma row_order_is_irrelevant_witness :
  let argv := ["data_viz.py"; "notables.csv"; "30"; "2"]%string in
  let clk := fun _ : nat => sample_now in
  (forall p, match sample_disk p, turned_disk p with
             | Some (Ok df), Some (Ok df') => reordered df df'
             | Some (Raise e), Some (Raise e') => e = e'
             | None, None => True
             | _, _ => False
             end) /\
  fst (run argv sample_disk clk) = fst (run argv turned_disk clk) /\
  Permutation (reported (snd (run argv sample_disk clk)))
              (reported (snd (run argv turned_disk clk))).
Proof.
  intros argv clk.
  assert (H : forall p, match sample_disk p, turned_disk p with
                        | Some (Ok df), Some (Ok df') => reordered df df'
                        | Some (Raise e), Some (Raise e') => e = e'
                        | None, None => True
                        | _, _ => False
                        end).
  { intros p. unfold sample_disk, turned_disk.
    destruct (String.eqb p "notables.csv"); [ | exact I ].
    split; [ apply Permutation_rev | reflexivity ]. }
  split; [ exact H | ].
  exact (row_order_is_irrelevant argv sample_disk turned_disk clk H).
Defined.

(** X17 -- Arguments that are not given keep the defaults, and
    arguments past the third are ignored: a run without them is the run
    with the default path, "30" and "5" spelled out. *)
Theorem defaults_and_extra_arguments
        (prog path days mc : string) (extra : list string)
        (disk : string -> option (Res Frame)) (clk : nat -> Z) :
  run [prog] disk clk = run [prog; CSV_IN_DEFAULT; "30"; "5"]%string disk clk /\
  run [prog; path] disk clk = run [prog; path; "30"; "5"]%string disk clk /\
  run [prog; path; days] disk clk = run [prog; path; days; "5"]%string disk clk /\
  run (prog :: path :: days :: mc :: extra) disk clk
  = run [prog; path; days; mc] disk clk.
Proof.
  rewrite !run_console, !parse_four.
  change (Py.int "30") with (Ok 30 : Res Z).
  change (Py.int "5") with (Ok 5 : Res Z).
  unfold parse_cli, bind, set_CSV_IN, set_LOOKBACK_DAYS, set_MIN_CLUSTER,
    modify, lift, ret. cbn [nth_error boot CSV_IN LOOKBACK_DAYS MIN_CLUSTER
                             fs opened clock stdout].
  split; [ reflexivity | ]. split; [ reflexivity | ].
  split.
  - destruct (Py.int days); reflexivity.
  - destruct (Py.int days); [ | reflexivity ].
    destruct (Py.int mc); reflexivity.
Qed.

(** X18 -- When the arguments parse and no file is at the path, [main]
    ends on [FileNotFoundError] right after the attempt to open it: the
    exit status is 1, nothing is printed and the clock is never read. *)
Theorem missing_file_is_fatal
        (argv : list string) (disk : string -> option (Res Frame))
        (clk : nat -> Z) (g : World) :
  parse_cli argv (boot disk clk) = (Ok tt, g) ->
  disk (CSV_IN g) = None ->
  exists w',
    main argv (boot disk clk) = (Raise FileNotFoundError, w') /\
    opened w' = [CSV_IN g] /\ stdout w' = [] /\ clock w' = clk /\
    run argv disk clk = (1, []).
Proof.
  intros Hparse Hfile.
  pose proof (parse_cli_frame argv (boot disk clk)) as Hframe.
  rewrite Hparse in Hframe. cbn in Hframe.
  destruct Hframe as (Hfs & Hop & Hclk & Hout).
  eexists. split.
  - unfold main. rewrite (bind_ok _ _ _ _ _ Hparse).
    rewrite (bind_ok _ _ g g g) by reflexivity.
    apply bind_raise. unfold read_csv. rewrite Hfs, Hfile. reflexivity.
  - cbn [opened stdout clock]. rewrite Hop, Hout, Hclk.
    split; [ reflexivity | ]. split; [ reflexivity | ].
    split; [ reflexivity | ].
    rewrite run_console, Hparse, Hfile. reflexivity.
Qed.

Lemma missing_file_is_fatal_witness :
  let argv := ["data_viz.py"; "missing.csv"]%string in
  let clk := fun _ : nat => sample_now in
  let g := mkWorld "missing.csv" 30 5 sample_disk [] clk [] in
  parse_cli argv (boot sample_disk clk) = (Ok tt, g) /\
  sample_disk "missing.csv" = None /\
  exists w',
    main argv (boot sample_disk clk) = (Raise FileNotFoundError, w') /\
    opened w' = ["missing.csv"%string] /\ stdout w' = [] /\ clock w' = clk /\
    run argv sample_disk clk = (1, []).
Proof.
  intros argv clk g.
  assert (Hparse : parse_cli argv (boot sample_disk clk) = (Ok tt, g))
    by reflexivity.
  assert (Hfile : sample_disk (CSV_IN g) = None) by reflexivity.
  split; [ exact Hparse | ]. split; [ exact Hfile | ].
  exact (missing_file_is_fatal argv sample_disk clk g Hparse Hfile).
Defined.

End SummarizerRuns.
